(** * Covid-Data-Proj: the domain model and the freshness-gated fetch policy

    A shallow embedding of [covid-data/model/model.tsx] (value objects,
    derived rates, chart points, the staleness test) and of the controller
    ([StorageController], [CovidController]) that reconciles the remote
    provider with the persisted cache.

    Conventions.
    - A JavaScript [number] that holds a count or an epoch timestamp is a
      [Z].  The rates divide and multiply doubles: [Module Double] gives
      them the IEEE 754 binary64 operations of [SpecFloat].
    - A field that may be missing from a raw payload is an [option];
      [x || d] is written out by [or_num] and [or_str].
    - A date-keyed series is an association list in the order in which
      [Object.keys] enumerates the object (for keys that are not array
      indices, such as ["3/1/21"], this is insertion order).
    - The persistence store is a [gmap string Payload]. *)

From Stdlib Require Import ZArith String Ascii List Lia Sorted Permutation SpecFloat.
From stdpp Require Import base option strings gmap.
Import ListNotations.
Local Open Scope Z_scope.
Local Open Scope string_scope.

(** ** Constants of model.tsx *)

Module STORAGE_KEYS.
Definition COUNTRIES_DATA : string := "@covid19_countries".
Definition LAST_UPDATE : string := "@covid19_last_update".
Definition HISTORICAL_PREFIX : string := "@covid19_historical_".
End STORAGE_KEYS.

Definition CACHE_DURATION : Z := 3600000.

(** ** JavaScript's [||] on numbers and strings *)

(** [x || d] for a possibly missing number: [undefined] and [0] are falsy. *)
Definition or_num (x : option Z) (d : Z) : Z :=
  match x with
  | Some v => if Z.eqb v 0 then d else v
  | None => d
  end.

(** [s || d] for a possibly missing string: [undefined] and [''] are falsy. *)
Definition or_str (s : option string) (d : string) : string :=
  match s with
  | Some v => if String.eqb v "" then d else v
  | None => d
  end.

(** ** Country records *)

Record CountryInfo := mkCountryInfo {
  ci_id : Z;
  ci_iso2 : string;
  ci_iso3 : string;
  ci_lat : Z;
  ci_long : Z;
  ci_flag : string
}.

(** The raw payload ([CountryData] as it arrives from JSON): any field may
    be absent. *)
Record CountryData := mkCountryData {
  d_country : option string;
  d_countryInfo : option CountryInfo;
  d_updated : option Z;
  d_cases : option Z;
  d_todayCases : option Z;
  d_deaths : option Z;
  d_todayDeaths : option Z;
  d_recovered : option Z;
  d_todayRecovered : option Z;
  d_active : option Z;
  d_critical : option Z;
  d_casesPerOneMillion : option Z;
  d_deathsPerOneMillion : option Z;
  d_tests : option Z;
  d_testsPerOneMillion : option Z;
  d_population : option Z;
  d_continent : option string;
  d_oneCasePerPeople : option Z;
  d_oneDeathPerPeople : option Z;
  d_oneTestPerPeople : option Z;
  d_activePerOneMillion : option Z;
  d_recoveredPerOneMillion : option Z;
  d_criticalPerOneMillion : option Z
}.

(** The payload with no field at all. *)
Definition emptyCountryData : CountryData :=
  mkCountryData None None None None None None None None None None None None
                None None None None None None None None None None None.

(** The payload [{country: name}]. *)
Definition onlyCountry (name : string) : CountryData :=
  mkCountryData (Some name) None None None None None None None None None None
                None None None None None None None None None None None None.

Record CountryModel := mkCountryModel {
  country : string;
  countryInfo : CountryInfo;
  updated : Z;
  cases : Z;
  todayCases : Z;
  deaths : Z;
  todayDeaths : Z;
  recovered : Z;
  todayRecovered : Z;
  active : Z;
  critical : Z;
  casesPerOneMillion : Z;
  deathsPerOneMillion : Z;
  tests : Z;
  testsPerOneMillion : Z;
  population : Z;
  continent : string;
  oneCasePerPeople : Z;
  oneDeathPerPeople : Z;
  oneTestPerPeople : Z;
  activePerOneMillion : Z;
  recoveredPerOneMillion : Z;
  criticalPerOneMillion : Z
}.

(** The literal that the constructor uses when [countryInfo] is absent. *)
Definition zeroCountryInfo : CountryInfo := mkCountryInfo 0 "" "" 0 0 "".

(** [new CountryModel(data)], with [now] the value of [Date.now()]. *)
Definition newCountryModel (now : Z) (data : CountryData) : CountryModel :=
  {| country := or_str (d_country data) "";
     countryInfo := match d_countryInfo data with
                    | Some ci => ci
                    | None => zeroCountryInfo
                    end;
     updated := or_num (d_updated data) now;
     cases := or_num (d_cases data) 0;
     todayCases := or_num (d_todayCases data) 0;
     deaths := or_num (d_deaths data) 0;
     todayDeaths := or_num (d_todayDeaths data) 0;
     recovered := or_num (d_recovered data) 0;
     todayRecovered := or_num (d_todayRecovered data) 0;
     active := or_num (d_active data) 0;
     critical := or_num (d_critical data) 0;
     casesPerOneMillion := or_num (d_casesPerOneMillion data) 0;
     deathsPerOneMillion := or_num (d_deathsPerOneMillion data) 0;
     tests := or_num (d_tests data) 0;
     testsPerOneMillion := or_num (d_testsPerOneMillion data) 0;
     population := or_num (d_population data) 0;
     continent := or_str (d_continent data) "";
     oneCasePerPeople := or_num (d_oneCasePerPeople data) 0;
     oneDeathPerPeople := or_num (d_oneDeathPerPeople data) 0;
     oneTestPerPeople := or_num (d_oneTestPerPeople data) 0;
     activePerOneMillion := or_num (d_activePerOneMillion data) 0;
     recoveredPerOneMillion := or_num (d_recoveredPerOneMillion data) 0;
     criticalPerOneMillion := or_num (d_criticalPerOneMillion data) 0 |}.

(** [CountryModel.fromArray]. *)
Definition fromArray (now : Z) (dataArray : list CountryData) : list CountryModel :=
  map (newCountryModel now) dataArray.

(** The numeric fields of a record other than [updated]. *)
Definition countFields (m : CountryModel) : list Z :=
  [cases m; todayCases m; deaths m; todayDeaths m; recovered m;
   todayRecovered m; active m; critical m; casesPerOneMillion m;
   deathsPerOneMillion m; tests m; testsPerOneMillion m; population m;
   oneCasePerPeople m; oneDeathPerPeople m; oneTestPerPeople m;
   activePerOneMillion m; recoveredPerOneMillion m; criticalPerOneMillion m].

(** The same fields of the raw payload, in the same order. *)
Definition rawCountFields (d : CountryData) : list (option Z) :=
  [d_cases d; d_todayCases d; d_deaths d; d_todayDeaths d; d_recovered d;
   d_todayRecovered d; d_active d; d_critical d; d_casesPerOneMillion d;
   d_deathsPerOneMillion d; d_tests d; d_testsPerOneMillion d; d_population d;
   d_oneCasePerPeople d; d_oneDeathPerPeople d; d_oneTestPerPeople d;
   d_activePerOneMillion d; d_recoveredPerOneMillion d; d_criticalPerOneMillion d].

(** ** The staleness test *)

(** [isDataStale(lastUpdate, cacheDuration)], with [now] the value that
    [Date.now()] returns inside it.  [!lastUpdate] holds for [null] and for
    the number [0]. *)
Definition isDataStale (now : Z) (lastUpdate : option Z) (cacheDuration : Z) : bool :=
  match lastUpdate with
  | None => true
  | Some m => if Z.eqb m 0 then true else Z.ltb cacheDuration (now - m)
  end.

(** ** Derived rates *)

(** The rates divide and multiply doubles and print them with
    [Number.prototype.toFixed]; the section takes these primitives of the
    language as variables, and [Module Double] below supplies them. *)
Section Rates.
Variable number : Type.
Variable of_Z : Z -> number.
Variable num_div num_mul : number -> number -> number.
Variable toFixed : number -> nat -> string.

  (** [((part / total) * 100).toFixed(2)] *)
Definition percentage (part total : Z) : string :=
    toFixed (num_mul (num_div (of_Z part) (of_Z total)) (of_Z 100)) 2.

Definition getDeathRate (m : CountryModel) : string :=
    if Z.eqb (cases m) 0 then "0.00" else percentage (deaths m) (cases m).

Definition getRecoveryRate (m : CountryModel) : string :=
    if Z.eqb (cases m) 0 then "0.00" else percentage (recovered m) (cases m).

Definition getActiveRate (m : CountryModel) : string :=
    if Z.eqb (cases m) 0 then "0.00" else percentage (active m) (cases m).
End Rates.

(** Decimal printing of exact fractions: [(p, q)] stands for [p / q], and
    [toFixed] rounds to the nearest numeral with [f] decimals, a tie going
    away from zero. *)
Module Exact.
Definition fraction : Type := Z * Z.

Definition digit (n : Z) : string :=
    String (ascii_of_nat (48 + Z.to_nat n)) "".

Fixpoint digits (fuel : nat) (n : Z) : string :=
    match fuel with
    | O => ""
    | S f => if Z.ltb n 10 then digit n
             else digits f (n / 10) ++ digit (n mod 10)
    end.

  (** Decimal rendering of a non-negative integer. *)
Definition decimal (n : Z) : string := digits (S (Z.to_nat (Z.log2 n))) n.

Fixpoint pow10 (f : nat) : Z :=
    match f with O => 1 | S k => 10 * pow10 k end.

Fixpoint pad (f : nat) (n : Z) : string :=
    match f with
    | O => ""
    | S k => pad k (n / 10) ++ digit (n mod 10)
    end.

Definition toFixed (x : fraction) (f : nat) : string :=
    let '(p, q) := x in
    if Z.eqb q 0 then (if Z.eqb p 0 then "NaN" else "Infinity")
    else
      let neg := Z.ltb (p * q) 0 in
      let p' := Z.abs p in
      let q' := Z.abs q in
      let n := (2 * p' * pow10 f + q') / (2 * q') in
      let body := decimal (n / pow10 f) ++
                  match f with O => "" | S _ => "." ++ pad f (n mod pow10 f) end in
      if neg then "-" ++ body else body.
End Exact.

(** The primitives on doubles: IEEE 754 binary64, rounding to nearest even,
    as [SpecFloat] defines it. *)
Module Double.
Definition number : Type := spec_float.
Definition prec : Z := 53.
Definition emax : Z := 1024.

(** The double nearest to an integer (the integer itself up to [2^53]). *)
Definition of_Z (z : Z) : number := binary_normalize prec emax z 0 false.

Definition num_div : number -> number -> number := SFdiv prec emax.
Definition num_mul : number -> number -> number := SFmul prec emax.

(** The value of a finite double, as an exact fraction with a positive
    denominator. *)
Definition value (x : number) : Exact.fraction :=
  match x with
  | S754_finite s m e =>
      let m' := if s then Z.neg m else Z.pos m in
      if Z.leb 0 e then (m' * 2 ^ e, 1) else (m', 2 ^ (- e))
  | _ => (0, 1)
  end.

Definition is_finite (x : number) : bool :=
  match x with
  | S754_zero _ | S754_finite _ _ _ => true
  | _ => false
  end.

(** [|x| < 10^21] *)
Definition below_1e21 (x : number) : bool :=
  Z.ltb (Z.abs (fst (value x))) (10 ^ 21 * snd (value x)).

(** [x.toFixed(f)]: a double that is not finite prints by name, one of
    magnitude [10^21] or more prints as [toString] does (the section's
    variable), any other as the nearest numeral with [f] decimals to its
    exact value, a tie going to the larger magnitude. *)
Section ToFixed.
Variable toString : number -> string.

Definition toFixed (x : number) (f : nat) : string :=
  match x with
  | S754_nan => "NaN"
  | S754_infinity s => if s then "-Infinity" else "Infinity"
  | _ => if below_1e21 x then Exact.toFixed (value x) f else toString x
  end.

Definition getDeathRate : CountryModel -> string :=
  getDeathRate number of_Z num_div num_mul toFixed.
Definition getRecoveryRate : CountryModel -> string :=
  getRecoveryRate number of_Z num_div num_mul toFixed.
Definition getActiveRate : CountryModel -> string :=
  getActiveRate number of_Z num_div num_mul toFixed.
End ToFixed.

(** The double that a rate prints: [(part / total) * 100]. *)
Definition percent (part total : Z) : number :=
  num_mul (num_div (of_Z part) (of_Z total)) (of_Z 100).
End Double.

(** Reading a numeral with two decimals back as a number of hundredths. *)
Definition digit_value (a : ascii) : option Z :=
  let n := nat_of_ascii a in
  if Nat.leb 48 n && Nat.leb n 57 then Some (Z.of_nat n - 48) else None.

Fixpoint read_unsigned (acc : Z) (s : string) : option Z :=
  match s with
  | EmptyString => None
  | String a rest =>
      if Ascii.eqb a "."
      then match rest with
           | String d1 (String d2 EmptyString) =>
               match digit_value d1, digit_value d2 with
               | Some v1, Some v2 => Some (acc * 100 + 10 * v1 + v2)
               | _, _ => None
               end
           | _ => None
           end
      else match digit_value a with
           | Some v => read_unsigned (10 * acc + v) rest
           | None => None
           end
  end.

Definition read_hundredths (s : string) : option Z :=
  match s with
  | String a rest =>
      if Ascii.eqb a "-"
      then match read_unsigned 0 rest with Some n => Some (- n) | None => None end
      else read_unsigned 0 s
  | EmptyString => None
  end.

(** The claim's words: the ratio times 100, in exact arithmetic, rounded to
    two decimals. *)
Definition rounded_percentage (part total : Z) : string :=
  Exact.toFixed (100 * part, total) 2.

(** [s] is a numeral with two decimals, and no other such numeral is nearer
    to the exact value of [x]. *)
Definition prints_nearest_hundredth (x : Double.number) (s : string) : Prop :=
  exists n, read_hundredths s = Some n
    /\ 2 * Z.abs (100 * fst (Double.value x) - n * snd (Double.value x))
       <= snd (Double.value x).

(** Finite and below [10^21] in magnitude. *)
Definition in_fixed_range (x : Double.number) : bool :=
  Double.is_finite x && Double.below_1e21 x.

(** For the concrete runs, whose doubles all stay below [10^21]: there
    [toString] is not consulted. *)
Definition unconsulted_toString : Double.number -> string := fun _ => "".

(** 160 cases, 23 deaths, 80 recovered, 57 active. *)
Definition tie_record : CountryModel :=
  mkCountryModel "X" zeroCountryInfo 1 160 0 23 0 80 0 57 0 0 0 0 0 0 "" 0 0 0 0 0 0.

(** No cases, and other fields that are not zero. *)
Definition no_cases_record : CountryModel :=
  mkCountryModel "X" zeroCountryInfo 1 0 0 7 0 9 0 11 0 0 0 0 0 0 "" 0 0 0 0 0 0.

(** ** Historical series *)

(** A date-keyed object, as the list of its entries in [Object.keys] order. *)
Definition Series : Type := list (string * Z).

(** [Object.keys(o)] *)
Definition keys (o : Series) : list string := map fst o.

(** [o[k]] *)
Fixpoint get (o : Series) (k : string) : option Z :=
  match o with
  | [] => None
  | (k', v) :: rest => if String.eqb k' k then Some v else get rest k
  end.

Record RawTimeline := mkRawTimeline {
  rt_cases : option Series;
  rt_deaths : option Series;
  rt_recovered : option Series
}.

Record HistoricalData := mkHistoricalData {
  hd_country : option string;
  hd_province : option (list string);
  hd_timeline : option RawTimeline
}.

Record HistoricalTimeline := mkHistoricalTimeline {
  tl_cases : Series;
  tl_deaths : Series;
  tl_recovered : Series
}.

Record HistoricalDataModel := mkHistoricalDataModel {
  hm_country : string;
  hm_province : list string;
  timeline : HistoricalTimeline
}.

(** [data.timeline?.f || {}] *)
Definition series_or_empty (t : option RawTimeline)
    (f : RawTimeline -> option Series) : Series :=
  match t with
  | Some tl => match f tl with Some s => s | None => [] end
  | None => []
  end.

(** [new HistoricalDataModel(data)] *)
Definition newHistoricalDataModel (data : HistoricalData) : HistoricalDataModel :=
  {| hm_country := or_str (hd_country data) "";
     hm_province := match hd_province data with Some p => p | None => [] end;
     timeline := {| tl_cases := series_or_empty (hd_timeline data) rt_cases;
                    tl_deaths := series_or_empty (hd_timeline data) rt_deaths;
                    tl_recovered := series_or_empty (hd_timeline data) rt_recovered |} |}.

Record ChartDataPoint := mkChartDataPoint {
  cp_date : string;
  cp_cases : Z;
  cp_deaths : Z;
  cp_recovered : Z
}.

(** [s.split(sep)] for a one-character separator: never the empty list. *)
Fixpoint split (sep : ascii) (s : string) : list string :=
  match s with
  | EmptyString => [""]
  | String a rest =>
      if Ascii.eqb a sep then "" :: split sep rest
      else match split sep rest with
           | h :: t => String a h :: t
           | [] => [String a ""]
           end
  end.

(** A component of a destructured array inside a template literal: a
    missing one prints as [undefined]. *)
Definition component (parts : list string) (i : nat) : string :=
  match nth_error parts i with
  | Some p => p
  | None => "undefined"
  end.

(** [formatDate(dateString)] *)
Definition formatDate (dateString : string) : string :=
  let parts := split "/" dateString in
  component parts 0 ++ "/" ++ component parts 1.

(** [getChartData()] *)
Definition getChartData (h : HistoricalDataModel) : list ChartDataPoint :=
  let dates := keys (tl_cases (timeline h)) in
  map (fun date =>
         {| cp_date := formatDate date;
            cp_cases := or_num (get (tl_cases (timeline h)) date) 0;
            cp_deaths := or_num (get (tl_deaths (timeline h)) date) 0;
            cp_recovered := or_num (get (tl_recovered (timeline h)) date) 0 |})
      dates.

(** A calendar-day key [month/day/year] whose month and day hold no [/]. *)
Fixpoint has_slash (s : string) : bool :=
  match s with
  | EmptyString => false
  | String a rest => Ascii.eqb a "/" || has_slash rest
  end.

(** ** The world of the controller *)

(** A JSON value held by the persistence store. *)
Inductive Payload :=
| PCountries (l : list CountryData)
| PNumber (n : Z)
| PHistorical (h : HistoricalData).

(** [getItem<T>] is an unchecked cast; a slot is read at the shape it was
    written with, and a value of another shape counts as absent. *)
Definition as_countries (p : Payload) : option (list CountryData) :=
  match p with PCountries l => Some l | _ => None end.
Definition as_number (p : Payload) : option Z :=
  match p with PNumber n => Some n | _ => None end.
Definition as_historical (p : Payload) : option HistoricalData :=
  match p with PHistorical h => Some h | _ => None end.

(** Calls that leave the program. *)
Inductive Event :=
| EvProbe
| EvGetItem (key : string)
| EvSetItem (key : string)
| EvGetAllCountries
| EvGetCountry (name : string)
| EvGetHistorical (name days : string).

(** The behaviour of the collaborators, call by call: the n-th call that
    leaves the program is answered by the entry at [n].  [inl msg] and
    [Some msg] are a rejected promise whose error has message [msg]. *)
Record Env := mkEnv {
  clock : nat -> Z;
  netinfo : nat -> string + option bool;
  getItem_fault : nat -> option string;
  setItem_fault : nat -> option string;
  http_countries : nat -> string + option (list CountryData);
  http_country : nat -> string -> string + option CountryData;
  http_historical : nat -> string -> string -> string + option HistoricalData
}.

Record State := mkState {
  tick : nat;
  store : gmap string Payload;
  log : list Event;
  isOnline : bool
}.

Inductive Res (A : Type) :=
| Ok (a : A)
| Throw (message : string).
Arguments Ok {A} a.
Arguments Throw {A} message.

(** An [async] computation, run to completion. *)
Definition M (A : Type) : Type := State -> Res A * State.

Definition ret {A} (a : A) : M A := fun s => (Ok a, s).

Definition bind {A B} (m : M A) (k : A -> M B) : M B :=
  fun s => match m s with
           | (Ok a, s') => k a s'
           | (Throw e, s') => (Throw e, s')
           end.

Notation "'let*' x ':=' m 'in' k" := (bind m (fun x => k))
  (at level 10, x name, m at level 100, k at level 200).

(** [try { body } catch (error) { handler(error.message) }] *)
Definition try_catch {A} (body : M A) (handler : string -> M A) : M A :=
  fun s => match body s with
           | (Ok a, s') => (Ok a, s')
           | (Throw e, s') => handler e s'
           end.

(** A block that may [return] early: [Some r] is the returned value. *)
Definition or_else {A} (m : M (option A)) (rest : M A) : M A :=
  let* r := m in
  match r with
  | Some a => ret a
  | None => rest
  end.

Definition external (ev : Event) (s : State) : State :=
  {| tick := S (tick s); store := store s; log := log s ++ [ev]; isOnline := isOnline s |}.

Definition is_remote (ev : Event) : bool :=
  match ev with
  | EvGetAllCountries | EvGetCountry _ | EvGetHistorical _ _ => true
  | _ => false
  end.

Definition is_store_read (ev : Event) : bool :=
  match ev with EvGetItem _ => true | _ => false end.

Definition is_store_write (ev : Event) : bool :=
  match ev with EvSetItem _ => true | _ => false end.

Definition remote_calls (l : list Event) : list Event := List.filter is_remote l.
Definition store_reads (l : list Event) : list Event := List.filter is_store_read l.
Definition store_writes (l : list Event) : list Event := List.filter is_store_write l.

Record ApiResponse (T : Type) := mkApiResponse {
  r_success : bool;
  r_data : option T;
  r_error : option string
}.
Arguments r_success {T} _.
Arguments r_data {T} _.
Arguments r_error {T} _.

Record FetchResult (T : Type) := mkFetchResult {
  success : bool;
  data : T;
  fromCache : option bool;
  message : option string;
  error : option string
}.
Arguments mkFetchResult {T}.
Arguments success {T} _.
Arguments data {T} _.
Arguments fromCache {T} _.
Arguments message {T} _.
Arguments error {T} _.

Section Controller.
Variable env : Env.

(** *** Primitives *)

Definition DateNow : M Z := fun s => (Ok (clock env (tick s)), s).

Definition NetInfo_fetch : M (option bool) :=
  fun s => match netinfo env (tick s) with
           | inl e => (Throw e, external EvProbe s)
           | inr c => (Ok c, external EvProbe s)
           end.

Definition AsyncStorage_getItem (key : string) : M (option Payload) :=
  fun s => match getItem_fault env (tick s) with
           | Some e => (Throw e, external (EvGetItem key) s)
           | None => (Ok (store s !! key), external (EvGetItem key) s)
           end.

Definition AsyncStorage_setItem (key : string) (value : Payload) : M unit :=
  fun s => match setItem_fault env (tick s) with
           | Some e => (Throw e, external (EvSetItem key) s)
           | None => (Ok tt, {| tick := S (tick s);
                                store := <[key := value]> (store s);
                                log := log s ++ [EvSetItem key];
                                isOnline := isOnline s |})
           end.

Definition axios_get {T} (ev : Event) (answer : nat -> string + option T) : M (option T) :=
  fun s => match answer (tick s) with
           | inl e => (Throw e, external ev s)
           | inr body => (Ok body, external ev s)
           end.

(** *** StorageService *)

Definition setItem (key : string) (value : Payload) : M bool :=
  try_catch (let* _ := AsyncStorage_setItem key value in ret true)
            (fun _ => ret false).

Definition getItem {T} (decode : Payload -> option T) (key : string) : M (option T) :=
  try_catch (let* jsonValue := AsyncStorage_getItem key in
             ret (match jsonValue with Some p => decode p | None => None end))
            (fun _ => ret None).

(** *** ApiService *)

Definition api_call {T} (ev : Event) (answer : nat -> string + option T) : M (ApiResponse T) :=
  try_catch (let* body := axios_get ev answer in
             ret {| r_success := true; r_data := body; r_error := None |})
            (fun e => ret {| r_success := false; r_data := None; r_error := Some e |}).

Definition getAllCountries : M (ApiResponse (list CountryData)) :=
  api_call EvGetAllCountries (http_countries env).

Definition getCountry (countryName : string) : M (ApiResponse CountryData) :=
  api_call (EvGetCountry countryName) (fun n => http_country env n countryName).

Definition getHistoricalData (countryName days : string) : M (ApiResponse HistoricalData) :=
  api_call (EvGetHistorical countryName days)
           (fun n => http_historical env n countryName days).

(** *** StorageController *)

Definition historical_key (countryName : string) : string :=
  STORAGE_KEYS.HISTORICAL_PREFIX ++ countryName.

Definition saveCountriesData (countries : list CountryData) : M bool :=
  try_catch (let* ok := setItem STORAGE_KEYS.COUNTRIES_DATA (PCountries countries) in
             let* _ := (if ok
                        then let* now := DateNow in
                             setItem STORAGE_KEYS.LAST_UPDATE (PNumber now)
                        else ret false) in
             ret ok)
            (fun _ => ret false).

Definition getCountriesData : M (option (list CountryData)) :=
  try_catch (getItem as_countries STORAGE_KEYS.COUNTRIES_DATA) (fun _ => ret None).

Definition saveHistoricalData (countryName : string) (h : HistoricalData) : M bool :=
  try_catch (setItem (historical_key countryName) (PHistorical h)) (fun _ => ret false).

(** [StorageController.getHistoricalData]; [ApiService] has a method of the
    same name, which keeps it here. *)
Definition getCachedHistoricalData (countryName : string) : M (option HistoricalData) :=
  try_catch (getItem as_historical (historical_key countryName)) (fun _ => ret None).

Definition getLastUpdateTime : M (option Z) :=
  try_catch (getItem as_number STORAGE_KEYS.LAST_UPDATE) (fun _ => ret None).

(** *** CovidController *)

Definition set_isOnline (b : bool) : M unit :=
  fun s => (Ok tt, {| tick := tick s; store := store s; log := log s; isOnline := b |}).

(** [state.isConnected ?? false] *)
Definition checkConnection : M bool :=
  let* state := NetInfo_fetch in
  let isConnected := match state with Some b => b | None => false end in
  let* _ := set_isOnline isConnected in
  ret isConnected.

(** [CountryModel.fromArray(l)] inside the controller: the constructor
    reads the clock for a missing [updated]. *)
Definition models (l : list CountryData) : M (list CountryModel) :=
  let* now := DateNow in ret (fromArray now l).

Definition model (c : CountryData) : M CountryModel :=
  let* now := DateNow in ret (newCountryModel now c).

(** The [try] block of [fetchAllCountries]. *)
Definition fetchAllCountries_body (forceRefresh : bool) : M (FetchResult (list CountryModel)) :=
  let* isConnected := checkConnection in
  let* lastUpdate := getLastUpdateTime in
  let* now := DateNow in
  let dataIsStale := isDataStale now lastUpdate CACHE_DURATION in
  or_else
    (if negb forceRefresh && negb dataIsStale
     then let* cachedData := getCountriesData in
          match cachedData with
          | Some l => let* ms := models l in
                      ret (Some (mkFetchResult true ms (Some true) None None))
          | None => ret None
          end
     else ret None)
  (or_else
    (if isConnected && (forceRefresh || dataIsStale)
     then let* response := getAllCountries in
          match r_success response, r_data response with
          | true, Some l =>
              let* countries := models l in
              let* _ := saveCountriesData l in
              ret (Some (mkFetchResult true countries (Some false) None None))
          | _, _ => ret None
          end
     else ret None)
  (let* cachedData := getCountriesData in
   match cachedData with
   | Some l => let* ms := models l in
               ret (mkFetchResult true ms (Some true)
                      (Some "Using cached data (offline or API unavailable)") None)
   | None => ret (mkFetchResult false [] None None (Some "No data available"))
   end)).

(** The [catch] block of [fetchAllCountries]. *)
Definition fetchAllCountries_handler (e : string) : M (FetchResult (list CountryModel)) :=
  let* cachedData := getCountriesData in
  match cachedData with
  | Some l => let* ms := models l in
              ret (mkFetchResult true ms (Some true)
                     (Some "Using cached data due to error") None)
  | None => ret (mkFetchResult false [] None None (Some e))
  end.

Definition fetchAllCountries (forceRefresh : bool) : M (FetchResult (list CountryModel)) :=
  try_catch (fetchAllCountries_body forceRefresh) fetchAllCountries_handler.

(** [c => c.country === countryName] *)
Definition named (countryName : string) (c : CountryData) : bool :=
  match d_country c with
  | Some n => String.eqb n countryName
  | None => false
  end.

(** The [try] block of [fetchCountryDetails]. *)
Definition fetchCountryDetails_body (countryName : string) : M (FetchResult (option CountryModel)) :=
  let* isConnected := checkConnection in
  or_else
    (if isConnected
     then let* response := getCountry countryName in
          match r_success response, r_data response with
          | true, Some c => let* m := model c in
                            ret (Some (mkFetchResult true (Some m) None None None))
          | _, _ => ret None
          end
     else ret None)
  (let* cachedCountries := getCountriesData in
   or_else
     (match cachedCountries with
      | Some l => match List.find (named countryName) l with
                  | Some c => let* m := model c in
                              ret (Some (mkFetchResult true (Some m) (Some true) None None))
                  | None => ret None
                  end
      | None => ret None
      end)
   (ret (mkFetchResult false None None None (Some "Country data not available")))).

Definition fetchCountryDetails_handler (e : string) : M (FetchResult (option CountryModel)) :=
  ret (mkFetchResult false None None None (Some e)).

Definition fetchCountryDetails (countryName : string) : M (FetchResult (option CountryModel)) :=
  try_catch (fetchCountryDetails_body countryName) fetchCountryDetails_handler.

(** The [try] block of [fetchHistoricalData]. *)
Definition fetchHistoricalData_body (countryName days : string)
    : M (FetchResult (option HistoricalDataModel)) :=
  let* isConnected := checkConnection in
  let* cachedData := getCachedHistoricalData countryName in
  or_else
    (if isConnected
     then let* response := getHistoricalData countryName days in
          match r_success response, r_data response with
          | true, Some h =>
              let historicalData := newHistoricalDataModel h in
              let* _ := saveHistoricalData countryName h in
              ret (Some (mkFetchResult true (Some historicalData) (Some false) None None))
          | _, _ => ret None
          end
     else ret None)
  (match cachedData with
   | Some h => ret (mkFetchResult true (Some (newHistoricalDataModel h)) (Some true) None None)
   | None => ret (mkFetchResult false None None None (Some "Historical data not available"))
   end).

Definition fetchHistoricalData_handler (countryName : string) (e : string)
    : M (FetchResult (option HistoricalDataModel)) :=
  let* cachedData := getCachedHistoricalData countryName in
  match cachedData with
  | Some h => ret (mkFetchResult true (Some (newHistoricalDataModel h)) (Some true) None None)
  | None => ret (mkFetchResult false None None None (Some e))
  end.

Definition fetchHistoricalData (countryName days : string)
    : M (FetchResult (option HistoricalDataModel)) :=
  try_catch (fetchHistoricalData_body countryName days)
            (fetchHistoricalData_handler countryName).


End Controller.

(** ** Vocabulary of the statements *)

(** A computation that returns from every state. *)
Definition never_throws {A} (m : M A) : Prop :=
  forall s, exists a s', m s = (Ok a, s').

(** The marker as [getLastUpdateTime] decodes it from the store. *)
Definition marker (s : State) : option Z :=
  match store s !! STORAGE_KEYS.LAST_UPDATE with
  | Some p => as_number p
  | None => None
  end.

(** The country-list slot as [getCountriesData] decodes it. *)
Definition cachedCountries (s : State) : option (list CountryData) :=
  match store s !! STORAGE_KEYS.COUNTRIES_DATA with
  | Some p => as_countries p
  | None => None
  end.

(** The historical slot of a country as the controller decodes it. *)
Definition cachedHistorical (countryName : string) (s : State) : option HistoricalData :=
  match store s !! historical_key countryName with
  | Some p => as_historical p
  | None => None
  end.

(** [state.isConnected ?? false] *)
Definition connected (c : option bool) : bool :=
  match c with Some b => b | None => false end.

(** The state once the probe has answered [c]. *)
Definition probed (c : option bool) (s : State) : State :=
  {| tick := S (tick s); store := store s; log := log s ++ [EvProbe];
     isOnline := connected c |}.

(** The state once a write of [value] under [key] has been accepted. *)
Definition written (key : string) (value : Payload) (s : State) : State :=
  {| tick := S (tick s); store := <[key := value]> (store s);
     log := log s ++ [EvSetItem key]; isOnline := isOnline s |}.

(** What a read of the store yields: nothing if the read is rejected. *)
Definition read_at (env : Env) (s : State) {T} (slot : option T) : option T :=
  match getItem_fault env (tick s) with
  | Some _ => None
  | None => slot
  end.

(** Nothing was written between [s] and [s']. *)
Definition unchanged (s s' : State) : Prop :=
  store s' = store s /\ store_writes (log s') = store_writes (log s).





(** The probe's answer counts as offline: [isConnected] is [false] or [null]. *)
Definition offline (c : option bool) : Prop := c <> Some true.

(** ** Sample worlds *)

Definition sample_now : Z := 1700000000000.

(** Collaborators that answer every call the same way. *)
Definition steady (now : Z) (probe : string + option bool)
    (getFault setFault : option string)
    (list_all : string + option (list CountryData)) : Env :=
  {| clock := fun _ => now;
     netinfo := fun _ => probe;
     getItem_fault := fun _ => getFault;
     setItem_fault := fun _ => setFault;
     http_countries := fun _ => list_all;
     http_country := fun _ _ => inl "Network Error";
     http_historical := fun _ _ _ => inl "Network Error" |}.

(** Online, the store healthy, the provider serving the list [[{country: "X"}]]. *)
Definition online_env : Env :=
  steady sample_now (inr (Some true)) None None (inr (Some [onlyCountry "X"])).

(** Offline, the store healthy. *)
Definition offline_env : Env :=
  steady sample_now (inr (Some false)) None None (inl "Network Error").


(** The probe rejects. *)
Definition probe_fault_env : Env :=
  steady sample_now (inl "NetInfo unavailable") None None (inl "Network Error").

(** Online, the provider serving a list, the store rejecting the second
    call that leaves the program (the read of the marker) and no other. *)
Definition marker_read_fault_env : Env :=
  {| clock := fun _ => sample_now;
     netinfo := fun _ => inr (Some true);
     getItem_fault := fun n => match n with
                               | 1%nat => Some "Storage unavailable"
                               | _ => None
                               end;
     setItem_fault := fun _ => None;
     http_countries := fun _ => inr (Some [onlyCountry "Y"]);
     http_country := fun _ _ => inl "Network Error";
     http_historical := fun _ _ _ => inl "Network Error" |}.

Definition start (st : gmap string Payload) : State :=
  {| tick := 0; store := st; log := []; isOnline := true |}.

Definition sample_series : HistoricalData :=
  {| hd_country := Some "X";
     hd_province := None;
     hd_timeline := Some {| rt_cases := Some [("3/1/21", 10); ("3/2/21", 20)];
                            rt_deaths := Some [("3/1/21", 1)];
                            rt_recovered := Some [] |} |}.

(** A store whose list and marker were written ten minutes before
    [sample_now]. *)
Definition fresh_store : gmap string Payload :=
  <[STORAGE_KEYS.LAST_UPDATE := PNumber (sample_now - 600000)]>
    (<[STORAGE_KEYS.COUNTRIES_DATA := PCountries [onlyCountry "X"]]>
       (<[historical_key "X" := PHistorical sample_series]> ∅)).

(** A fresh marker without a list. *)
Definition marker_only_store : gmap string Payload :=
  <[STORAGE_KEYS.LAST_UPDATE := PNumber (sample_now - 600000)]> ∅.

(** ** Further code of model.tsx *)

(** *** [formatNumber] *)

Definition is_digit (a : ascii) : bool :=
  Nat.leb 48 (nat_of_ascii a) && Nat.leb (nat_of_ascii a) 57.

(** A word character of a regular expression: [[A-Za-z0-9_]]. *)
Definition is_word (a : ascii) : bool :=
  let n := nat_of_ascii a in
  is_digit a
  || (Nat.leb 65 n && Nat.leb n 90)
  || (Nat.leb 97 n && Nat.leb n 122)
  || Nat.eqb n 95.

(** The number of digits that [s] starts with. *)
Fixpoint digit_run (s : string) : nat :=
  match s with
  | EmptyString => O
  | String a rest => if is_digit a then S (digit_run rest) else O
  end.

(** [(?=(\d{3})+(?!\d))] at the start of [s]: the digits that follow come
    in a positive number of groups of three. *)
Definition groups_of_three (s : string) : bool :=
  Nat.ltb 0 (digit_run s) && Nat.eqb (Nat.modulo (digit_run s) 3) 0.

(** The positions after the first character; [prev] is the character just
    before [s].  [\B] holds between [prev] and a digit when [prev] is a
    word character. *)
Fixpoint commas_from (prev : ascii) (s : string) : string :=
  match s with
  | EmptyString => EmptyString
  | String a rest =>
      if is_word prev && groups_of_three s
      then String "," (String a (commas_from a rest))
      else String a (commas_from a rest)
  end.

(** [s.replace(/\B(?=(\d{3})+(?!\d))/g, ',')]: the start of the string is
    never a match, since a digit there follows a word boundary. *)
Definition replace_commas (s : string) : string :=
  match s with
  | EmptyString => EmptyString
  | String a rest => String a (commas_from a rest)
  end.

Fixpoint strip_commas (s : string) : string :=
  match s with
  | EmptyString => EmptyString
  | String a rest =>
      if Ascii.eqb a "," then strip_commas rest else String a (strip_commas rest)
  end.

Fixpoint count_commas (s : string) : nat :=
  match s with
  | EmptyString => O
  | String a rest => if Ascii.eqb a "," then S (count_commas rest) else count_commas rest
  end.

Fixpoint all_digits (s : string) : bool :=
  match s with
  | EmptyString => true
  | String a rest => is_digit a && all_digits rest
  end.

(** [formatNumber(num)]; [Number.prototype.toString] is the section's
    variable. *)
Section FormatNumber.
Variable toString : Z -> string.

Definition formatNumber (num : Z) : string :=
  if Z.eqb num 0 then "0" else replace_commas (toString num).
End FormatNumber.

(** [toString] of an integer below [10^21]: its decimal digits, after a
    minus sign when negative. *)
Definition integer_toString (n : Z) : string :=
  if Z.ltb n 0 then "-" ++ Exact.decimal (- n) else Exact.decimal n.

(** *** [sortCountriesByCases] *)

(** [Array.prototype.sort(compare)] is stable; it is rendered as the stable
    insertion sort: [x] goes before the first [y] that it does not follow. *)
Fixpoint insert_by {A} (compare : A -> A -> Z) (x : A) (l : list A) : list A :=
  match l with
  | [] => [x]
  | y :: rest => if Z.leb (compare x y) 0 then x :: y :: rest
                 else y :: insert_by compare x rest
  end.

Fixpoint sort_by {A} (compare : A -> A -> Z) (l : list A) : list A :=
  match l with
  | [] => []
  | x :: rest => insert_by compare x (sort_by compare rest)
  end.

Definition sortCountriesByCases (countries : list CountryModel) : list CountryModel :=
  sort_by (fun a b => cases b - cases a) countries.

(** *** [getLatestData] and [getTotalCases] *)

(** [dates[dates.length - 1]]: [undefined] for the empty array. *)
Definition last_date (dates : list string) : option string :=
  nth_error dates (Nat.sub (length dates) 1).

(** A value used as a property name: [undefined] names the property
    ["undefined"]. *)
Definition property_name (k : option string) : string :=
  match k with
  | Some s => s
  | None => "undefined"
  end.

Record LatestData := mkLatestData {
  ld_date : option string;
  ld_cases : Z;
  ld_deaths : Z;
  ld_recovered : Z
}.

Definition getLatestData (h : HistoricalDataModel) : LatestData :=
  let dates := keys (tl_cases (timeline h)) in
  let latestDate := last_date dates in
  {| ld_date := latestDate;
     ld_cases := or_num (get (tl_cases (timeline h)) (property_name latestDate)) 0;
     ld_deaths := or_num (get (tl_deaths (timeline h)) (property_name latestDate)) 0;
     ld_recovered := or_num (get (tl_recovered (timeline h)) (property_name latestDate)) 0 |}.

Definition getTotalCases (h : HistoricalDataModel) : Z :=
  let dates := keys (tl_cases (timeline h)) in
  or_num (get (tl_cases (timeline h)) (property_name (last_date dates))) 0.

(** ** The sampling of chart points in view.tsx *)

(** [data.filter((_, index) => keep(index))], from index [i] on. *)
Fixpoint filter_index {A} (keep : nat -> bool) (i : nat) (l : list A) : list A :=
  match l with
  | [] => []
  | x :: rest => if keep i then x :: filter_index keep (S i) rest
                 else filter_index keep (S i) rest
  end.

(** [Math.ceil(data.length / 30)] *)
Definition sampling_step (n : nat) : nat := Nat.div (n + 29) 30.

(** [sampledData] of [ChartView], reached only for a non-empty [data]. *)
Definition sampledData {A} (data : list A) : list A :=
  let step := sampling_step (length data) in
  filter_index (fun index => Nat.eqb (Nat.modulo index step) 0) O data.

(** ** Further code of the controller *)

(** *** [clearAllData] *)

(** [AsyncStorage.clear()] answers from an oracle of its own; the log has no
    event for it. *)
Section ClearAllData.
Variable clear_fault : nat -> option string.

Definition AsyncStorage_clear : M unit :=
  fun s => match clear_fault (tick s) with
           | Some e => (Throw e, {| tick := S (tick s); store := store s;
                                    log := log s; isOnline := isOnline s |})
           | None => (Ok tt, {| tick := S (tick s); store := ∅;
                                log := log s; isOnline := isOnline s |})
           end.

(** [StorageService.clear] *)
Definition clear : M bool :=
  try_catch (let* _ := AsyncStorage_clear in ret true) (fun _ => ret false).

(** [StorageController.clearAllData] *)
Definition clearAllData : M bool := try_catch clear (fun _ => ret false).
End ClearAllData.

(** *** Vocabulary *)

(** An answer of the HTTP client that carries no body: a rejection, or a
    response whose [data] is falsy. *)
Definition no_body {T} (answer : string + option T) : Prop :=
  match answer with
  | inr (Some _) => False
  | _ => True
  end.

(** The cached list has no entry named [countryName] (or there is no list). *)
Definition no_cached_entry (countryName : string) (s : State) : Prop :=
  match cachedCountries s with
  | Some l => List.find (named countryName) l = None
  | None => True
  end.

(** The provider rejects every request. *)
Definition api_down_env : Env :=
  steady sample_now (inr (Some true)) None None (inl "Network Error").

(** Online, the store healthy, the provider serving the series of ["X"]
    and the record of ["X"]. *)
Definition serving_env : Env :=
  {| clock := fun _ => sample_now;
     netinfo := fun _ => inr (Some true);
     getItem_fault := fun _ => None;
     setItem_fault := fun _ => None;
     http_countries := fun _ => inr (Some [onlyCountry "X"]);
     http_country := fun _ _ => inr (Some (onlyCountry "X"));
     http_historical := fun _ _ _ => inr (Some sample_series) |}.

(** Online for the first call only; the provider serves the series. *)
Definition going_offline_env : Env :=
  {| clock := fun _ => sample_now;
     netinfo := fun n => match n with O => inr (Some true) | _ => inr (Some false) end;
     getItem_fault := fun _ => None;
     setItem_fault := fun _ => None;
     http_countries := fun _ => inr (Some [onlyCountry "X"]);
     http_country := fun _ _ => inr (Some (onlyCountry "X"));
     http_historical := fun _ _ _ => inr (Some sample_series) |}.

(** The shape of an outcome: a success carries no error, a failure carries
    an error, no [fromCache] and the default data. *)
Definition well_formed_outcome {T} (default : T) (r : FetchResult T) : Prop :=
  if success r
  then error r = None
  else data r = default /\ fromCache r = None /\ message r = None /\ error r <> None.

(** ** The controller over slots of any shape *)

(** [getItem<T>] returns what [JSON.parse] produced, cast to [T] without a
    check.  The operations above read each slot at its declared type; the
    ones of this module read the payload as it is, so that the list slot,
    the marker and a historical slot may hold any of the three payloads.
    The bodies of the remote provider keep their declared types, and a
    thrown value carries a message, as before.  [not_a_function f] is the
    message of the [TypeError] that calling the missing method [f] throws;
    its wording is the engine's. *)
Module Unchecked.
Section Controller.
Variable not_a_function : string -> string.
Variable env : Env.

(** Arrays and objects are truthy, a number unless it is [0]. *)
Definition truthy (v : Payload) : bool :=
  match v with
  | PNumber n => negb (Z.eqb n 0)
  | _ => true
  end.

(** The value that passes [if (v)]. *)
Definition if_truthy (v : option Payload) : option Payload :=
  match v with
  | Some p => if truthy p then Some p else None
  | None => None
  end.

Definition throw {A} (message : string) : M A := fun s => (Throw message, s).

(** [CountryModel.fromArray(v)]: only an array has [map]. *)
Definition fromArray (v : Payload) : M (list CountryModel) :=
  match v with
  | PCountries l => models env l
  | _ => throw (not_a_function "dataArray.map")
  end.

(** [v.find(c => c.country === countryName)]: only an array has [find]. *)
Definition find (countryName : string) (v : Payload) : M (option CountryData) :=
  match v with
  | PCountries l => ret (List.find (named countryName) l)
  | _ => throw (not_a_function "cachedCountries.find")
  end.

(** The fields that [new HistoricalDataModel(v)] reads off a truthy [v]: an
    array or a number has none of them. *)
Definition as_record (v : Payload) : HistoricalData :=
  match v with
  | PHistorical h => h
  | _ => mkHistoricalData None None None
  end.

(** [isDataStale(v, cacheDuration)] on the marker as read: in [now - v] an
    empty array converts to [0], an array of records or an object to
    [NaN], and no comparison with [NaN] holds. *)
Definition isDataStale (now : Z) (v : option Payload) (cacheDuration : Z) : bool :=
  match v with
  | None => true
  | Some (PNumber n) => if Z.eqb n 0 then true else Z.ltb cacheDuration (now - n)
  | Some (PCountries []) => Z.ltb cacheDuration now
  | Some (PCountries (_ :: _)) => false
  | Some (PHistorical _) => false
  end.

(** *** StorageController *)

Definition getCountriesData : M (option Payload) :=
  try_catch (getItem env Some STORAGE_KEYS.COUNTRIES_DATA) (fun _ => ret None).

Definition getCachedHistoricalData (countryName : string) : M (option Payload) :=
  try_catch (getItem env Some (historical_key countryName)) (fun _ => ret None).

Definition getLastUpdateTime : M (option Payload) :=
  try_catch (getItem env Some STORAGE_KEYS.LAST_UPDATE) (fun _ => ret None).

(** *** CovidController *)

Definition fetchAllCountries_body (forceRefresh : bool) : M (FetchResult (list CountryModel)) :=
  let* isConnected := checkConnection env in
  let* lastUpdate := getLastUpdateTime in
  let* now := DateNow env in
  let dataIsStale := isDataStale now lastUpdate CACHE_DURATION in
  or_else
    (if negb forceRefresh && negb dataIsStale
     then let* cachedData := getCountriesData in
          match if_truthy cachedData with
          | Some v => let* ms := fromArray v in
                      ret (Some (mkFetchResult true ms (Some true) None None))
          | None => ret None
          end
     else ret None)
  (or_else
    (if isConnected && (forceRefresh || dataIsStale)
     then let* response := getAllCountries env in
          match r_success response, r_data response with
          | true, Some l =>
              let* countries := models env l in
              let* _ := saveCountriesData env l in
              ret (Some (mkFetchResult true countries (Some false) None None))
          | _, _ => ret None
          end
     else ret None)
  (let* cachedData := getCountriesData in
   match if_truthy cachedData with
   | Some v => let* ms := fromArray v in
               ret (mkFetchResult true ms (Some true)
                      (Some "Using cached data (offline or API unavailable)") None)
   | None => ret (mkFetchResult false [] None None (Some "No data available"))
   end)).

Definition fetchAllCountries_handler (e : string) : M (FetchResult (list CountryModel)) :=
  let* cachedData := getCountriesData in
  match if_truthy cachedData with
  | Some v => let* ms := fromArray v in
              ret (mkFetchResult true ms (Some true)
                     (Some "Using cached data due to error") None)
  | None => ret (mkFetchResult false [] None None (Some e))
  end.

Definition fetchAllCountries (forceRefresh : bool) : M (FetchResult (list CountryModel)) :=
  try_catch (fetchAllCountries_body forceRefresh) fetchAllCountries_handler.

Definition fetchCountryDetails_body (countryName : string)
    : M (FetchResult (option CountryModel)) :=
  let* isConnected := checkConnection env in
  or_else
    (if isConnected
     then let* response := getCountry env countryName in
          match r_success response, r_data response with
          | true, Some c => let* m := model env c in
                            ret (Some (mkFetchResult true (Some m) None None None))
          | _, _ => ret None
          end
     else ret None)
  (let* cachedCountries := getCountriesData in
   or_else
     (match if_truthy cachedCountries with
      | Some v => let* country := find countryName v in
                  match country with
                  | Some c => let* m := model env c in
                              ret (Some (mkFetchResult true (Some m) (Some true) None None))
                  | None => ret None
                  end
      | None => ret None
      end)
   (ret (mkFetchResult false None None None (Some "Country data not available")))).

Definition fetchCountryDetails (countryName : string)
    : M (FetchResult (option CountryModel)) :=
  try_catch (fetchCountryDetails_body countryName) fetchCountryDetails_handler.

Definition fetchHistoricalData_body (countryName days : string)
    : M (FetchResult (option HistoricalDataModel)) :=
  let* isConnected := checkConnection env in
  let* cachedData := getCachedHistoricalData countryName in
  or_else
    (if isConnected
     then let* response := getHistoricalData env countryName days in
          match r_success response, r_data response with
          | true, Some h =>
              let historicalData := newHistoricalDataModel h in
              let* _ := saveHistoricalData env countryName h in
              ret (Some (mkFetchResult true (Some historicalData) (Some false) None None))
          | _, _ => ret None
          end
     else ret None)
  (match if_truthy cachedData with
   | Some v => ret (mkFetchResult true (Some (newHistoricalDataModel (as_record v)))
                      (Some true) None None)
   | None => ret (mkFetchResult false None None None (Some "Historical data not available"))
   end).

Definition fetchHistoricalData_handler (countryName : string) (e : string)
    : M (FetchResult (option HistoricalDataModel)) :=
  let* cachedData := getCachedHistoricalData countryName in
  match if_truthy cachedData with
  | Some v => ret (mkFetchResult true (Some (newHistoricalDataModel (as_record v)))
                     (Some true) None None)
  | None => ret (mkFetchResult false None None None (Some e))
  end.

Definition fetchHistoricalData (countryName days : string)
    : M (FetchResult (option HistoricalDataModel)) :=
  try_catch (fetchHistoricalData_body countryName days)
            (fetchHistoricalData_handler countryName).

End Controller.
End Unchecked.




(** The list slot, the marker and the historical slot of [countryName]
    hold values of their declared types, or nothing. *)
Definition declared_shapes (countryName : string) (s : State) : Prop :=
  (forall v, store s !! STORAGE_KEYS.COUNTRIES_DATA = Some v -> exists l, v = PCountries l)
  /\ (forall v, store s !! STORAGE_KEYS.LAST_UPDATE = Some v -> exists n, v = PNumber n)
  /\ (forall v, store s !! historical_key countryName = Some v -> exists h, v = PHistorical h).

(** * Properties of the domain model *)

Example split_date : split "/" "3/1/21" = ["3"; "1"; "21"].
Proof. reflexivity. Qed.

Example split_no_separator : formatDate "today" = "today/undefined".
Proof. reflexivity. Qed.

Example toFixed_padding : Exact.toFixed (1234567, 10) 2 = "123456.70".
Proof. vm_compute. reflexivity. Qed.

Lemma or_num_zero (x : option Z) : or_num x 0 = match x with Some v => v | None => 0 end.
Proof.
  destruct x as [v|]; simpl; [|reflexivity].
  destruct (Z.eqb_spec v 0); congruence.
Qed.

(** ** Staleness *)

(** C1, as stated, fails: a marker that is present and equal to [0] is
    stale whatever the clock and the duration say.  Here the age is 1000 ms,
    below the cache duration, and the marker is not absent. *)
Lemma isDataStale_zero_marker :
  ~ (isDataStale 1000 (Some 0) CACHE_DURATION = true
     <-> (Some 0 = (None : option Z) \/ 1000 - 0 > CACHE_DURATION)).
Proof.
  intros [H _]. specialize (H eq_refl).
  destruct H as [H | H]; [discriminate | unfold CACHE_DURATION in H; lia].
Qed.

(** C1 (amended): [isDataStale] answers [true] exactly when the marker is
    absent, is the number [0], or is older than the duration; on the
    boundary [now - m = d] a marker other than [0] is not stale. *)
Theorem isDataStale_spec (now : Z) (m : option Z) (d : Z) :
  (isDataStale now m d = true
   <-> (m = None \/ m = Some 0 \/ exists v, m = Some v /\ now - v > d))
  /\ (forall v, isDataStale (v + d) (Some v) d = Z.eqb v 0).
Proof.
  split.
  - destruct m as [v|]; simpl.
    + destruct (Z.eqb_spec v 0) as [->|Hv].
      * split; auto.
      * rewrite Z.ltb_lt. split.
        -- intros H. right; right. exists v. split; [reflexivity | lia].
        -- intros [H | [H | [v' [H1 H2]]]]; [discriminate | congruence |].
           injection H1 as <-. lia.
    + split; auto.
  - intros v. simpl. destruct (Z.eqb_spec v 0); [reflexivity|].
    apply Z.ltb_ge. lia.
Qed.

(** ** Construction of a country record *)

(** C2, as stated, fails: built from [{country: "X"}] alone, the numeric
    field [updated] holds the clock, not zero. *)
Lemma newCountryModel_updated_not_zero :
  updated (newCountryModel sample_now (onlyCountry "X")) <> 0.
Proof. vm_compute. discriminate. Qed.

(** C2 (amended): from [{country: "X"}] alone the record has [country = X],
    [updated] equal to the clock, every other numeric field [0], the
    continent empty and the zero-valued [countryInfo]; for any payload,
    an absent numeric field other than [updated] is [0], an absent string
    field is empty, an absent [countryInfo] is the zero-valued sub-record
    and an absent [updated] is the clock. *)
Theorem newCountryModel_defaults (now : Z) (X : string) (d : CountryData) :
  newCountryModel now (onlyCountry X) =
    mkCountryModel X zeroCountryInfo now 0 0 0 0 0 0 0 0 0 0 0 0 0 "" 0 0 0 0 0 0
  /\ (forall i, nth_error (rawCountFields d) i = Some None ->
                nth_error (countFields (newCountryModel now d)) i = Some 0)
  /\ (d_country d = None -> country (newCountryModel now d) = "")
  /\ (d_continent d = None -> continent (newCountryModel now d) = "")
  /\ (d_countryInfo d = None -> countryInfo (newCountryModel now d) = zeroCountryInfo)
  /\ (d_updated d = None -> updated (newCountryModel now d) = now).
Proof.
  split; [|split; [|repeat split]].
  - unfold newCountryModel, onlyCountry; simpl.
    destruct (String.eqb_spec X ""); subst; reflexivity.
  - intros i Hi. unfold rawCountFields in Hi. unfold countFields, newCountryModel; simpl.
    do 19 (destruct i as [|i]; [simpl in Hi |- *; injection Hi as ->; reflexivity|]).
    destruct i; discriminate Hi.
  - intros H. simpl. rewrite H. reflexivity.
  - intros H. simpl. rewrite H. reflexivity.
  - intros H. simpl. rewrite H. reflexivity.
  - intros H. simpl. rewrite H. reflexivity.
Qed.

Lemma newCountryModel_defaults_witness :
  nth_error (countFields (newCountryModel sample_now (onlyCountry "X"))) 2%nat = Some 0
  /\ continent (newCountryModel sample_now (onlyCountry "X")) = ""
  /\ countryInfo (newCountryModel sample_now (onlyCountry "X")) = zeroCountryInfo
  /\ updated (newCountryModel sample_now (onlyCountry "X")) = sample_now
  /\ country (newCountryModel sample_now emptyCountryData) = "".
Proof.
  destruct (newCountryModel_defaults sample_now "X" (onlyCountry "X"))
    as (_ & Hn & _ & Hc & Hi & Hu).
  destruct (newCountryModel_defaults sample_now "X" emptyCountryData)
    as (_ & _ & Hs & _).
  split; [apply Hn; reflexivity|].
  split; [apply Hc; reflexivity|].
  split; [apply Hi; reflexivity|].
  split; [apply Hu; reflexivity|].
  apply Hs; reflexivity.
Defined.

(** ** Derived rates *)

(** *** Reading back what [toFixed] prints *)

Lemma digit_cases (n : Z) :
  0 <= n < 10 -> exists k : nat, n = Z.of_nat k /\ (k < 10)%nat.
Proof. intros H. exists (Z.to_nat n). lia. Qed.

Lemma read_digit (acc n : Z) (rest : string) :
  0 <= n < 10 ->
  read_unsigned acc (Exact.digit n ++ rest) = read_unsigned (10 * acc + n) rest.
Proof.
  intros H. destruct (digit_cases n H) as (k & -> & Hk).
  do 10 (destruct k as [|k]; [reflexivity|]). exfalso. lia.
Qed.

Lemma string_app_assoc (a b c : string) : (a ++ b) ++ c = a ++ (b ++ c).
Proof.
  induction a as [|x a IH]; [reflexivity|].
  change (String x ((a ++ b) ++ c) = String x (a ++ (b ++ c))). rewrite IH. reflexivity.
Qed.

Lemma read_digits (f : nat) (n acc : Z) (rest : string) :
  0 <= n < 2 ^ Z.of_nat f ->
  exists k, 0 <= k /\
    read_unsigned acc (Exact.digits f n ++ rest) = read_unsigned (acc * 10 ^ k + n) rest.
Proof.
  revert n acc rest. induction f as [|f IH]; intros n acc rest Hn.
  - exists 0. split; [lia|]. simpl in *. replace n with 0 by lia.
    f_equal. lia.
  - cbn [Exact.digits]. destruct (Z.ltb_spec n 10) as [Hlt | Hge].
    + exists 1. split; [lia|]. rewrite read_digit by lia. f_equal. lia.
    + rewrite string_app_assoc.
      assert (Hq : 0 <= n / 10 < 2 ^ Z.of_nat f).
      { rewrite Nat2Z.inj_succ, Z.pow_succ_r in Hn by lia.
        split; [apply Z.div_pos; lia|].
        apply Z.div_lt_upper_bound; lia. }
      destruct (IH (n / 10) acc (Exact.digit (n mod 10) ++ rest) Hq) as (k & Hk & E).
      exists (k + 1). split; [lia|]. rewrite E.
      rewrite read_digit by (apply Z.mod_pos_bound; lia).
      f_equal. rewrite Z.pow_add_r by lia.
      pose proof (Z.div_mod n 10 ltac:(lia)). lia.
Qed.

Lemma read_decimal (n : Z) (rest : string) :
  0 <= n -> read_unsigned 0 (Exact.decimal n ++ rest) = read_unsigned n rest.
Proof.
  intros Hn. unfold Exact.decimal.
  destruct (read_digits (S (Z.to_nat (Z.log2 n))) n 0 rest) as (k & _ & E).
  - split; [exact Hn|].
    rewrite Nat2Z.inj_succ, Z2Nat.id by apply Z.log2_nonneg.
    destruct (Z.eq_dec n 0) as [-> | Hne]; [reflexivity|].
    apply Z.log2_spec. lia.
  - rewrite E. reflexivity.
Qed.

Lemma read_two_digits (acc d1 d2 : Z) :
  0 <= d1 < 10 -> 0 <= d2 < 10 ->
  read_unsigned acc ("." ++ ("" ++ Exact.digit d1) ++ Exact.digit d2)
  = Some (acc * 100 + 10 * d1 + d2).
Proof.
  intros H1 H2.
  destruct (digit_cases d1 H1) as (k1 & -> & Hk1).
  destruct (digit_cases d2 H2) as (k2 & -> & Hk2).
  do 10 (destruct k1 as [|k1];
         [do 10 (destruct k2 as [|k2]; [reflexivity|]); exfalso; lia|]).
  exfalso. lia.
Qed.

Lemma read_two_decimals (acc r : Z) :
  0 <= r < 100 ->
  read_unsigned acc ("." ++ Exact.pad 2 r) = Some (acc * 100 + r).
Proof.
  intros Hr. cbn [Exact.pad].
  assert (H1 : 0 <= (r / 10) mod 10 < 10) by (apply Z.mod_pos_bound; lia).
  assert (H2 : 0 <= r mod 10 < 10) by (apply Z.mod_pos_bound; lia).
  rewrite (read_two_digits acc _ _ H1 H2). f_equal.
  rewrite (Z.mod_small (r / 10) 10).
  - pose proof (Z.div_mod r 10 ltac:(lia)). lia.
  - split; [apply Z.div_pos; lia | apply Z.div_lt_upper_bound; lia].
Qed.

Lemma read_hundredths_unsigned (s : string) (n : Z) :
  read_unsigned 0 s = Some n -> read_hundredths s = Some n.
Proof.
  destruct s as [|a rest]; [discriminate|]. intros H. unfold read_hundredths.
  destruct (Ascii.eqb_spec a "-") as [-> | _]; [discriminate H | exact H].
Qed.

Lemma nearest_integer (p q : Z) :
  0 <= p -> 0 < q ->
  2 * Z.abs (p - (2 * p + q) / (2 * q) * q) <= q.
Proof.
  intros Hp Hq.
  pose proof (Z.div_mod (2 * p + q) (2 * q) ltac:(lia)) as E.
  pose proof (Z.mod_pos_bound (2 * p + q) (2 * q) ltac:(lia)) as B.
  lia.
Qed.

Lemma value_denominator (x : Double.number) : 0 < snd (Double.value x).
Proof.
  destruct x as [s | s | | s m e]; simpl; try lia.
  destruct (Z.leb_spec 0 e); simpl; [lia | apply Z.pow_pos_nonneg; lia].
Qed.

Lemma exact_toFixed_nearest (p q : Z) :
  0 < q ->
  exists n, read_hundredths (Exact.toFixed (p, q) 2) = Some n
    /\ 2 * Z.abs (100 * p - n * q) <= q.
Proof.
  intros Hq. unfold Exact.toFixed.
  destruct (Z.eqb_spec q 0) as [-> | _]; [lia|].
  rewrite (Z.abs_eq q) by lia.
  change (Exact.pow10 2) with 100.
  set (N := (2 * Z.abs p * 100 + q) / (2 * q)).
  assert (HN : 0 <= N).
  { unfold N. apply Z.div_pos; lia. }
  assert (Hbody : read_unsigned 0 (Exact.decimal (N / 100) ++ "." ++ Exact.pad 2 (N mod 100))
                  = Some N).
  { rewrite read_decimal by (apply Z.div_pos; lia).
    rewrite read_two_decimals by (apply Z.mod_pos_bound; lia).
    f_equal. pose proof (Z.div_mod N 100 ltac:(lia)). lia. }
  pose proof (nearest_integer (100 * Z.abs p) q ltac:(lia) Hq) as Hnear.
  replace (2 * (100 * Z.abs p) + q) with (2 * Z.abs p * 100 + q) in Hnear by lia.
  fold N in Hnear.
  destruct (Z.ltb_spec (p * q) 0) as [Hneg | Hpos].
  - exists (- N). split.
    + change ("-" ++ ?b) with (String "-" b). cbn [read_hundredths].
      change (Ascii.eqb "-" "-") with true. cbn iota. rewrite Hbody. reflexivity.
    + assert (p < 0) by nia. rewrite (Z.abs_neq p) in Hnear by lia. lia.
  - exists N. split.
    + apply read_hundredths_unsigned. exact Hbody.
    + assert (0 <= p) by nia. rewrite (Z.abs_eq p) in Hnear by lia. lia.
Qed.

Lemma toFixed_nearest (toString : Double.number -> string) (x : Double.number) :
  Double.is_finite x = true -> Double.below_1e21 x = true ->
  prints_nearest_hundredth x (Double.toFixed toString x 2).
Proof.
  intros Hf Hb. unfold prints_nearest_hundredth.
  assert (E : Double.toFixed toString x 2 = Exact.toFixed (Double.value x) 2).
  { unfold Double.toFixed. destruct x; try discriminate Hf; rewrite Hb; reflexivity. }
  rewrite E. pose proof (value_denominator x) as Hq.
  destruct (Double.value x) as [p q]. apply exact_toFixed_nearest. exact Hq.
Qed.

(** *** The three rates *)

(** C3, as stated, fails: with 23 deaths in 160 cases the ratio times 100 is
    14.375, which rounds to 14.38, and the death rate is ["14.37"]: the
    doubles [23 / 160] and its product with 100 are rounded first, and the
    product falls just below 14.375. *)
Lemma getDeathRate_not_exact_rounding :
  0 < cases tie_record
  /\ Double.getDeathRate unconsulted_toString tie_record = "14.37"
  /\ rounded_percentage (deaths tie_record) (cases tie_record) = "14.38"
  /\ Double.getDeathRate unconsulted_toString tie_record
     <> rounded_percentage (deaths tie_record) (cases tie_record).
Proof.
  split; [reflexivity|]. split; [vm_compute; reflexivity|].
  split; [vm_compute; reflexivity|]. vm_compute. discriminate.
Qed.

(** C3 (amended): with [cases = 0] the three rates are the string ["0.00"]
    whatever the other fields hold; with [cases] other than [0] each rate is
    what [toFixed(2)] prints for the double [(field / cases) * 100], the
    division and the product being those of IEEE 754 binary64; and for a
    double that is finite and below [10^21], what [toFixed(2)] prints is a
    numeral with two decimals nearest to the exact value of that double. *)
Theorem rates_double_spec (toString : Double.number -> string) (m : CountryModel) :
  (cases m = 0 ->
     Double.getDeathRate toString m = "0.00"
     /\ Double.getRecoveryRate toString m = "0.00"
     /\ Double.getActiveRate toString m = "0.00")
  /\ (cases m <> 0 ->
        Double.getDeathRate toString m
          = Double.toFixed toString (Double.percent (deaths m) (cases m)) 2
        /\ Double.getRecoveryRate toString m
          = Double.toFixed toString (Double.percent (recovered m) (cases m)) 2
        /\ Double.getActiveRate toString m
          = Double.toFixed toString (Double.percent (active m) (cases m)) 2)
  /\ (forall x, in_fixed_range x = true ->
        prints_nearest_hundredth x (Double.toFixed toString x 2)).
Proof.
  unfold Double.getDeathRate, Double.getRecoveryRate, Double.getActiveRate,
    getDeathRate, getRecoveryRate, getActiveRate, percentage, Double.percent.
  split; [|split].
  - intros H. rewrite H. simpl. auto.
  - intros H. apply Z.eqb_neq in H. rewrite H. auto.
  - intros x Hx. apply andb_true_iff in Hx as [Hf Hb].
    apply toFixed_nearest; assumption.
Qed.

Lemma rates_double_spec_witness :
  (Double.getDeathRate unconsulted_toString no_cases_record = "0.00"
   /\ Double.getRecoveryRate unconsulted_toString no_cases_record = "0.00"
   /\ Double.getActiveRate unconsulted_toString no_cases_record = "0.00")
  /\ (Double.getDeathRate unconsulted_toString tie_record = "14.37"
      /\ Double.getRecoveryRate unconsulted_toString tie_record = "50.00"
      /\ Double.getActiveRate unconsulted_toString tie_record = "35.63")
  /\ prints_nearest_hundredth (Double.percent 23 160)
       (Double.getDeathRate unconsulted_toString tie_record).
Proof.
  destruct (rates_double_spec unconsulted_toString no_cases_record) as (Hzero & _ & _).
  destruct (rates_double_spec unconsulted_toString tie_record) as (_ & Hrate & Hnear).
  split; [apply Hzero; reflexivity|].
  destruct Hrate as (Hd & Hr & Ha); [discriminate|].
  split.
  - rewrite Hd, Hr, Ha. vm_compute. auto.
  - rewrite Hd. apply Hnear. vm_compute. reflexivity.
Defined.


(** ** Chart points *)

Lemma split_segment (m rest : string) :
  has_slash m = false -> split "/" (m ++ String "/" rest) = m :: split "/" rest.
Proof.
  induction m as [|a m IH]; simpl; intros H.
  - reflexivity.
  - apply orb_false_iff in H as [Ha Hm].
    rewrite Ha, (IH Hm). reflexivity.
Qed.

Lemma formatDate_calendar (m d y : string) :
  has_slash m = false -> has_slash d = false ->
  formatDate (m ++ "/" ++ d ++ "/" ++ y) = m ++ "/" ++ d.
Proof.
  intros Hm Hd. unfold formatDate.
  change (m ++ "/" ++ d ++ "/" ++ y) with (m ++ String "/" (d ++ String "/" y)).
  rewrite (split_segment _ _ Hm), (split_segment _ _ Hd). reflexivity.
Qed.

(** C4: the chart points follow the keys of the cases series in their
    enumeration order, one point per key; the point at a key carries the
    formatted key, the cases entry and the deaths and recovered entries of
    the same key, [0] where there is none; a key [month/day/year] is
    formatted as [month/day]; and the series of the example yields exactly
    the two points of the example, in order. *)
Theorem getChartData_spec (h : HistoricalDataModel) :
  length (getChartData h) = length (keys (tl_cases (timeline h)))
  /\ (forall i date,
        nth_error (keys (tl_cases (timeline h))) i = Some date ->
        nth_error (getChartData h) i =
          Some {| cp_date := formatDate date;
                  cp_cases := match get (tl_cases (timeline h)) date with
                              | Some v => v | None => 0 end;
                  cp_deaths := match get (tl_deaths (timeline h)) date with
                               | Some v => v | None => 0 end;
                  cp_recovered := match get (tl_recovered (timeline h)) date with
                                  | Some v => v | None => 0 end |})
  /\ (forall m d y, has_slash m = false -> has_slash d = false ->
        formatDate (m ++ "/" ++ d ++ "/" ++ y) = m ++ "/" ++ d)
  /\ getChartData (newHistoricalDataModel sample_series) =
       [ {| cp_date := "3/1"; cp_cases := 10; cp_deaths := 1; cp_recovered := 0 |};
         {| cp_date := "3/2"; cp_cases := 20; cp_deaths := 0; cp_recovered := 0 |} ].
Proof.
  split; [|split; [|split]].
  - unfold getChartData. apply length_map.
  - intros i date Hi. unfold getChartData.
    rewrite nth_error_map, Hi. simpl.
    rewrite !or_num_zero. reflexivity.
  - exact formatDate_calendar.
  - reflexivity.
Qed.

Lemma getChartData_spec_witness :
  nth_error (getChartData (newHistoricalDataModel sample_series)) 1%nat =
    Some {| cp_date := "3/2"; cp_cases := 20; cp_deaths := 0; cp_recovered := 0 |}
  /\ formatDate "12/31/20" = "12/31".
Proof.
  destruct (getChartData_spec (newHistoricalDataModel sample_series)) as (_ & Hp & Hf & _).
  split.
  - apply (Hp 1%nat "3/2/21"). reflexivity.
  - apply (Hf "12" "31" "20"); reflexivity.
Defined.

(** * Properties of the controller *)

(** ** Computations that cannot throw *)

Lemma never_throws_ret {A} (a : A) : never_throws (ret a).
Proof. intros s. exists a, s. reflexivity. Qed.

Lemma never_throws_bind {A B} (m : M A) (k : A -> M B) :
  never_throws m -> (forall a, never_throws (k a)) -> never_throws (bind m k).
Proof.
  intros Hm Hk s. destruct (Hm s) as (a & s1 & E).
  destruct (Hk a s1) as (b & s2 & E2).
  exists b, s2. unfold bind. rewrite E. exact E2.
Qed.

(** A [try] whose [catch] block cannot throw returns, whatever its body does. *)
Lemma never_throws_try_catch {A} (body : M A) (handler : string -> M A) :
  (forall e, never_throws (handler e)) -> never_throws (try_catch body handler).
Proof.
  intros Hh s. unfold try_catch.
  destruct (body s) as [[a | e] s1].
  - exists a, s1. reflexivity.
  - apply Hh.
Qed.

Lemma never_throws_DateNow env : never_throws (DateNow env).
Proof. intros s. eexists _, _. reflexivity. Qed.

Lemma never_throws_setItem env key value : never_throws (setItem env key value).
Proof. apply never_throws_try_catch. intros _. apply never_throws_ret. Qed.

Lemma never_throws_getItem env {T} (decode : Payload -> option T) key :
  never_throws (getItem env decode key).
Proof. apply never_throws_try_catch. intros _. apply never_throws_ret. Qed.

Lemma never_throws_getCountriesData env : never_throws (getCountriesData env).
Proof. apply never_throws_try_catch. intros _. apply never_throws_ret. Qed.

Lemma never_throws_getCachedHistoricalData env name :
  never_throws (getCachedHistoricalData env name).
Proof. apply never_throws_try_catch. intros _. apply never_throws_ret. Qed.

Lemma never_throws_models env l : never_throws (models env l).
Proof.
  apply never_throws_bind; [apply never_throws_DateNow|].
  intros now. apply never_throws_ret.
Qed.

Lemma never_throws_fetchAllCountries_handler env e :
  never_throws (fetchAllCountries_handler env e).
Proof.
  apply never_throws_bind; [apply never_throws_getCountriesData|].
  intros [l|]; [|apply never_throws_ret].
  apply never_throws_bind; [apply never_throws_models|].
  intros ms. apply never_throws_ret.
Qed.

Lemma never_throws_fetchHistoricalData_handler env name e :
  never_throws (fetchHistoricalData_handler env name e).
Proof.
  apply never_throws_bind; [apply never_throws_getCachedHistoricalData|].
  intros [h|]; apply never_throws_ret.
Qed.

(** Over slots read at their declared types, no operation ends in a thrown
    exception. *)
Lemma typed_operations_never_throw (env : Env)
    (forceRefresh : bool) (countryName days : string) :
  never_throws (fetchAllCountries env forceRefresh)
  /\ never_throws (fetchCountryDetails env countryName)
  /\ never_throws (fetchHistoricalData env countryName days).
Proof.
  split; [|split].
  - apply never_throws_try_catch. apply never_throws_fetchAllCountries_handler.
  - apply never_throws_try_catch. intros e. apply never_throws_ret.
  - apply never_throws_try_catch. apply never_throws_fetchHistoricalData_handler.
Qed.

(** ** How the collaborators' answers drive one call *)

Lemma run_checkConnection env s c :
  netinfo env (tick s) = inr c ->
  checkConnection env s = (Ok (connected c), probed c s).
Proof.
  intros H. unfold checkConnection, bind, NetInfo_fetch, set_isOnline, ret.
  rewrite H. reflexivity.
Qed.

Lemma run_checkConnection_throw env s e :
  netinfo env (tick s) = inl e ->
  checkConnection env s = (Throw e, external EvProbe s).
Proof.
  intros H. unfold checkConnection, bind, NetInfo_fetch. rewrite H. reflexivity.
Qed.

Lemma run_getItem env {T} (decode : Payload -> option T) key s :
  getItem env decode key s =
    (Ok (match getItem_fault env (tick s) with
         | Some _ => None
         | None => match store s !! key with Some p => decode p | None => None end
         end),
     external (EvGetItem key) s).
Proof.
  unfold getItem, try_catch, bind, AsyncStorage_getItem, ret.
  destruct (getItem_fault env (tick s)); reflexivity.
Qed.

Lemma run_getLastUpdateTime env s :
  getLastUpdateTime env s =
    (Ok (read_at env s (marker s)), external (EvGetItem STORAGE_KEYS.LAST_UPDATE) s).
Proof.
  unfold getLastUpdateTime, try_catch, read_at. rewrite run_getItem.
  destruct (getItem_fault env (tick s)); reflexivity.
Qed.

Lemma run_getCountriesData env s :
  getCountriesData env s =
    (Ok (read_at env s (cachedCountries s)),
     external (EvGetItem STORAGE_KEYS.COUNTRIES_DATA) s).
Proof.
  unfold getCountriesData, try_catch, read_at. rewrite run_getItem.
  destruct (getItem_fault env (tick s)); reflexivity.
Qed.

Lemma run_getCachedHistoricalData env name s :
  getCachedHistoricalData env name s =
    (Ok (read_at env s (cachedHistorical name s)),
     external (EvGetItem (historical_key name)) s).
Proof.
  unfold getCachedHistoricalData, try_catch, read_at. rewrite run_getItem.
  destruct (getItem_fault env (tick s)); reflexivity.
Qed.

Lemma read_at_ok env s {T} (slot : option T) :
  (forall n, getItem_fault env n = None) -> read_at env s slot = slot.
Proof. intros H. unfold read_at. rewrite H. reflexivity. Qed.

Lemma run_setItem env key value s :
  setItem env key value s =
    match setItem_fault env (tick s) with
    | Some _ => (Ok false, external (EvSetItem key) s)
    | None => (Ok true, written key value s)
    end.
Proof.
  unfold setItem, try_catch, bind, AsyncStorage_setItem, ret.
  destruct (setItem_fault env (tick s)); reflexivity.
Qed.

Lemma run_saveCountriesData env l s :
  saveCountriesData env l s =
    match setItem_fault env (tick s) with
    | Some _ => (Ok false, external (EvSetItem STORAGE_KEYS.COUNTRIES_DATA) s)
    | None =>
        let s1 := written STORAGE_KEYS.COUNTRIES_DATA (PCountries l) s in
        match setItem_fault env (S (tick s)) with
        | Some _ => (Ok true, external (EvSetItem STORAGE_KEYS.LAST_UPDATE) s1)
        | None => (Ok true, written STORAGE_KEYS.LAST_UPDATE
                              (PNumber (clock env (S (tick s)))) s1)
        end
    end.
Proof.
  unfold saveCountriesData, try_catch, bind, DateNow, ret.
  rewrite run_setItem.
  destruct (setItem_fault env (tick s)); [reflexivity|].
  rewrite run_setItem. cbn [tick written].
  destruct (setItem_fault env (S (tick s))); reflexivity.
Qed.

Lemma run_saveHistoricalData env name h s :
  saveHistoricalData env name h s =
    match setItem_fault env (tick s) with
    | Some _ => (Ok false, external (EvSetItem (historical_key name)) s)
    | None => (Ok true, written (historical_key name) (PHistorical h) s)
    end.
Proof.
  unfold saveHistoricalData, try_catch. rewrite run_setItem.
  destruct (setItem_fault env (tick s)); reflexivity.
Qed.

Lemma run_api_call {T} ev (answer : nat -> string + option T) s :
  api_call ev answer s =
    (Ok (match answer (tick s) with
         | inl e => mkApiResponse T false None (Some e)
         | inr body => mkApiResponse T true body None
         end),
     external ev s).
Proof.
  unfold api_call, try_catch, bind, axios_get, ret.
  destruct (answer (tick s)); reflexivity.
Qed.

Lemma remote_calls_snoc l ev :
  remote_calls (l ++ [ev]) = (remote_calls l ++ (if is_remote ev then [ev] else []))%list.
Proof. unfold remote_calls. rewrite List.filter_app. reflexivity. Qed.

Lemma store_reads_snoc l ev :
  store_reads (l ++ [ev]) = (store_reads l ++ (if is_store_read ev then [ev] else []))%list.
Proof. unfold store_reads. rewrite List.filter_app. reflexivity. Qed.

Lemma store_writes_snoc l ev :
  store_writes (l ++ [ev]) = (store_writes l ++ (if is_store_write ev then [ev] else []))%list.
Proof. unfold store_writes. rewrite List.filter_app. reflexivity. Qed.

Lemma marker_external ev s : marker (external ev s) = marker s.
Proof. reflexivity. Qed.

Lemma marker_probed c s : marker (probed c s) = marker s.
Proof. reflexivity. Qed.

Lemma cachedCountries_external ev s : cachedCountries (external ev s) = cachedCountries s.
Proof. reflexivity. Qed.

Lemma cachedCountries_probed c s : cachedCountries (probed c s) = cachedCountries s.
Proof. reflexivity. Qed.

Lemma cachedHistorical_external name ev s :
  cachedHistorical name (external ev s) = cachedHistorical name s.
Proof. reflexivity. Qed.

Lemma cachedHistorical_probed name c s :
  cachedHistorical name (probed c s) = cachedHistorical name s.
Proof. reflexivity. Qed.

(** Opens an operation down to the calls that leave the controller. *)
Ltac open_controller :=
  unfold fetchAllCountries, fetchAllCountries_body, fetchAllCountries_handler,
    fetchCountryDetails, fetchCountryDetails_body, fetchCountryDetails_handler,
    fetchHistoricalData, fetchHistoricalData_body, fetchHistoricalData_handler,
    getAllCountries, getCountry, getHistoricalData,
    models, model, or_else, DateNow, try_catch, bind, ret.

Ltac run_step :=
  first [ rewrite run_getLastUpdateTime
        | rewrite run_getCountriesData
        | rewrite run_getCachedHistoricalData
        | rewrite run_saveCountriesData
        | rewrite run_saveHistoricalData
        | rewrite run_api_call
        | rewrite read_at_ok by assumption
        | rewrite marker_external | rewrite marker_probed
        | rewrite cachedCountries_external | rewrite cachedCountries_probed
        | rewrite cachedHistorical_external | rewrite cachedHistorical_probed ].

(** Runs the calls whose answer is known. *)
Ltac run :=
  repeat (cbn beta iota delta [negb andb orb]; run_step);
  cbn beta iota delta [negb andb orb].

Ltac same_remote_calls :=
  cbn [log external probed written];
  rewrite ?remote_calls_snoc, ?app_nil_r; reflexivity.

Lemma read_at_none env s {T} : read_at env s (@None T) = None.
Proof. unfold read_at. destruct (getItem_fault env (tick s)); reflexivity. Qed.

(** ** Serving the list from a fresh cache *)

(** C6, as stated, fails: the store holds a fresh marker and a list, the
    probe answers online, and the read of the marker is rejected;
    [getLastUpdateTime] then returns [null], the data counts as stale, and
    the remote list-all operation is called. *)
Lemma fresh_cache_unread_marker :
  marker (start fresh_store) = Some (sample_now - 600000)
  /\ isDataStale sample_now (Some (sample_now - 600000)) CACHE_DURATION = false
  /\ cachedCountries (start fresh_store) = Some [onlyCountry "X"]
  /\ remote_calls (log (snd (fetchAllCountries marker_read_fault_env false
                               (start fresh_store)))) = [EvGetAllCountries]
  /\ ~ (exists r s',
          fetchAllCountries marker_read_fault_env false (start fresh_store) = (Ok r, s')
          /\ success r = true /\ fromCache r = Some true
          /\ remote_calls (log s') = remote_calls (log (start fresh_store))).
Proof.
  split; [vm_compute; reflexivity|]. split; [vm_compute; reflexivity|].
  split; [vm_compute; reflexivity|]. split; [vm_compute; reflexivity|].
  intros (r & s' & E & _ & _ & Hlog).
  assert (Hrun : remote_calls (log (snd (fetchAllCountries marker_read_fault_env false
                                          (start fresh_store)))) = [EvGetAllCountries])
    by (vm_compute; reflexivity).
  rewrite E in Hrun. cbn [snd] in Hrun. rewrite Hlog in Hrun. discriminate Hrun.
Qed.

(** C6 (amended): when the store holds a marker that is not stale at the
    moment the staleness test reads the clock, holds a country list, and
    answers the reads of the marker and of the list,
    [fetchAllCountries(false)] returns success with [fromCache = true] and
    the models of the cached list, and the log gains no call of the remote
    provider; this holds whether the probe answers online, offline or
    rejects. *)
Theorem fresh_cache_served (env : Env) (s : State) (m : Z) (l : list CountryData) :
  getItem_fault env (S (tick s)) = None ->
  getItem_fault env (S (S (tick s))) = None ->
  marker s = Some m ->
  isDataStale (clock env (S (S (tick s)))) (Some m) CACHE_DURATION = false ->
  cachedCountries s = Some l ->
  exists r s', fetchAllCountries env false s = (Ok r, s')
    /\ success r = true /\ fromCache r = Some true
    /\ data r = fromArray (clock env (tick s')) l
    /\ remote_calls (log s') = remote_calls (log s).
Proof.
  intros Hg1 Hg2 Hm Hf Hc.
  open_controller.
  destruct (netinfo env (tick s)) as [e | c] eqn:Hp.
  - rewrite (run_checkConnection_throw _ _ _ Hp). run.
    unfold read_at. cbn [tick external]. rewrite Hg1, Hc.
    eexists _, _. split; [reflexivity|]. repeat split. same_remote_calls.
  - rewrite (run_checkConnection _ _ _ Hp). run.
    unfold read_at at 1. cbn [tick probed]. rewrite Hg1, Hm.
    change (tick (external (EvGetItem STORAGE_KEYS.LAST_UPDATE) (probed c s)))
      with (S (S (tick s))).
    rewrite Hf. run.
    unfold read_at. cbn [tick external probed]. rewrite Hg2, Hc.
    eexists _, _. split; [reflexivity|]. repeat split. same_remote_calls.
Qed.

(** ** A fresh marker over an empty list slot *)



Lemma fresh_cache_served_witness :
  exists r s', fetchAllCountries online_env false (start fresh_store) = (Ok r, s')
    /\ success r = true /\ fromCache r = Some true
    /\ data r = fromArray (clock online_env (tick s')) [onlyCountry "X"]
    /\ remote_calls (log s') = remote_calls (log (start fresh_store)).
Proof.
  apply (fresh_cache_served online_env (start fresh_store) (sample_now - 600000)).
  - reflexivity.
  - reflexivity.
  - vm_compute. reflexivity.
  - vm_compute. reflexivity.
  - vm_compute. reflexivity.
Defined.


(** ** Falling back to the cache when offline *)

Lemma offline_connected c : offline c -> connected c = false.
Proof.
  unfold offline. destruct c as [[|]|]; simpl; congruence.
Qed.

(** C7, as stated, fails for [fetchCountryDetails]: offline, with the list
    slot populated by a list that has no entry named as asked, the outcome
    is the failure "Country data not available". *)
Lemma offline_details_missing_entry :
  netinfo offline_env 0 = inr (Some false)
  /\ cachedCountries (start fresh_store) = Some [onlyCountry "X"]
  /\ ~ (exists r s', fetchCountryDetails offline_env "Y" (start fresh_store) = (Ok r, s')
          /\ success r = true /\ fromCache r = Some true).
Proof.
  split; [reflexivity|]. split; [vm_compute; reflexivity|].
  intros (r & s' & E & Hs & _).
  assert (Hrun : success match fst (fetchCountryDetails offline_env "Y" (start fresh_store)) with
                         | Ok r0 => r0
                         | Throw _ => mkFetchResult true None None None None
                         end = false) by (vm_compute; reflexivity).
  rewrite E in Hrun. simpl in Hrun. congruence.
Qed.

(** C7 (amended): when the probe answers offline and the store answers its
    reads, [fetchAllCountries] returns success from the cache whenever the
    list slot is populated, [fetchHistoricalData] whenever the slot of that
    country is populated, and [fetchCountryDetails] whenever the cached
    list has an entry whose [country] is exactly the name asked for; none
    of them calls the remote provider. *)
Theorem offline_cache_served (env : Env) (s : State) (c : option bool)
    (forceRefresh : bool) (countryName days : string) :
  (forall n, getItem_fault env n = None) ->
  netinfo env (tick s) = inr c ->
  offline c ->
  (forall l, cachedCountries s = Some l ->
     exists r s', fetchAllCountries env forceRefresh s = (Ok r, s')
       /\ success r = true /\ fromCache r = Some true
       /\ data r = fromArray (clock env (tick s')) l
       /\ remote_calls (log s') = remote_calls (log s))
  /\ (forall l entry, cachedCountries s = Some l ->
        List.find (named countryName) l = Some entry ->
        exists r s', fetchCountryDetails env countryName s = (Ok r, s')
          /\ success r = true /\ fromCache r = Some true
          /\ data r = Some (newCountryModel (clock env (tick s')) entry)
          /\ remote_calls (log s') = remote_calls (log s))
  /\ (forall h, cachedHistorical countryName s = Some h ->
        exists r s', fetchHistoricalData env countryName days s = (Ok r, s')
          /\ success r = true /\ fromCache r = Some true
          /\ data r = Some (newHistoricalDataModel h)
          /\ remote_calls (log s') = remote_calls (log s)).
Proof.
  intros Hg Hp Ho. pose proof (offline_connected c Ho) as Hoff.
  split; [|split].
  - intros l Hc. open_controller.
    rewrite (run_checkConnection _ _ _ Hp). run. rewrite Hoff.
    destruct (negb forceRefresh &&
              negb (isDataStale
                      (clock env (tick (external (EvGetItem STORAGE_KEYS.LAST_UPDATE)
                                                 (probed c s))))
                      (marker s) CACHE_DURATION)); run; rewrite Hc.
    + eexists _, _. split; [reflexivity|]. repeat split. same_remote_calls.
    + eexists _, _. split; [reflexivity|]. repeat split. same_remote_calls.
  - intros l entry Hc Hfind. open_controller.
    rewrite (run_checkConnection _ _ _ Hp). rewrite Hoff. run. rewrite Hc, Hfind.
    eexists _, _. split; [reflexivity|]. repeat split. same_remote_calls.
  - intros h Hc. open_controller.
    rewrite (run_checkConnection _ _ _ Hp). rewrite Hoff. run. rewrite Hc.
    eexists _, _. split; [reflexivity|]. repeat split. same_remote_calls.
Qed.

Lemma offline_cache_served_witness :
  (exists r s', fetchAllCountries offline_env true (start fresh_store) = (Ok r, s')
     /\ success r = true /\ fromCache r = Some true
     /\ data r = fromArray (clock offline_env (tick s')) [onlyCountry "X"]
     /\ remote_calls (log s') = remote_calls (log (start fresh_store)))
  /\ (exists r s', fetchCountryDetails offline_env "X" (start fresh_store) = (Ok r, s')
        /\ success r = true /\ fromCache r = Some true
        /\ data r = Some (newCountryModel (clock offline_env (tick s')) (onlyCountry "X"))
        /\ remote_calls (log s') = remote_calls (log (start fresh_store)))
  /\ (exists r s', fetchHistoricalData offline_env "X" "all" (start fresh_store) = (Ok r, s')
        /\ success r = true /\ fromCache r = Some true
        /\ data r = Some (newHistoricalDataModel sample_series)
        /\ remote_calls (log s') = remote_calls (log (start fresh_store))).
Proof.
  destruct (offline_cache_served offline_env (start fresh_store) (Some false) true "X" "all")
    as (Hall & Hone & Hhist).
  - intros n. reflexivity.
  - reflexivity.
  - unfold offline. discriminate.
  - split; [|split].
    + apply Hall. vm_compute. reflexivity.
    + apply (Hone [onlyCountry "X"]); vm_compute; reflexivity.
    + apply Hhist. vm_compute. reflexivity.
Defined.

(** ** Which runs write to the store *)

Lemma cachedCountries_written_list l s :
  cachedCountries (written STORAGE_KEYS.COUNTRIES_DATA (PCountries l) s) = Some l.
Proof.
  unfold cachedCountries, written; cbn [store]. rewrite lookup_insert_eq. reflexivity.
Qed.

Lemma cachedCountries_written_marker n s :
  cachedCountries (written STORAGE_KEYS.LAST_UPDATE (PNumber n) s) = cachedCountries s.
Proof.
  unfold cachedCountries, written; cbn [store].
  rewrite lookup_insert_ne by discriminate. reflexivity.
Qed.

Lemma marker_written n s :
  marker (written STORAGE_KEYS.LAST_UPDATE (PNumber n) s) = Some n.
Proof.
  unfold marker, written; cbn [store]. rewrite lookup_insert_eq. reflexivity.
Qed.




















(** ** Persisting a list served by the remote provider *)




(** ** Faults inside [fetchCountryDetails] *)

(** Splits on the innermost answer that a run still depends on. *)
Ltac split_case :=
  match goal with
  | |- context [if ?b then _ else _] =>
      lazymatch b with
      | context [match _ with _ => _ end] => fail
      | _ => destruct b eqn:?
      end
  | |- context [match ?x with _ => _ end] =>
      lazymatch x with
      | context [match _ with _ => _ end] => fail
      | _ => destruct x eqn:?
      end
  end.




(** * Further properties of the domain model *)

(** ** Staleness over time *)

(** Once a marker is stale it stays stale: at any later time, and under any
    shorter cache duration. *)
Theorem isDataStale_monotone (now now' : Z) (m : option Z) (d d' : Z) :
  now <= now' -> d' <= d ->
  isDataStale now m d = true -> isDataStale now' m d' = true.
Proof.
  intros Hn Hd. destruct m as [v|]; simpl; [|reflexivity].
  destruct (Z.eqb v 0); [reflexivity|].
  rewrite !Z.ltb_lt. lia.
Qed.

Lemma isDataStale_monotone_witness :
  isDataStale (sample_now + 1) (Some (sample_now - CACHE_DURATION - 1)) 1000 = true.
Proof.
  apply (isDataStale_monotone sample_now (sample_now + 1) _ CACHE_DURATION 1000).
  - unfold sample_now. lia.
  - unfold CACHE_DURATION. lia.
  - vm_compute. reflexivity.
Defined.

(** ** [formatNumber] *)

Lemma strip_commas_from (prev : ascii) (s : string) :
  strip_commas (commas_from prev s) = strip_commas s.
Proof.
  revert prev. induction s as [|a rest IH]; intros prev; [reflexivity|].
  cbn [commas_from].
  destruct (is_word prev && groups_of_three (String a rest)).
  - change (strip_commas (String "," (String a (commas_from a rest))))
      with (strip_commas (String a (commas_from a rest))).
    cbn [strip_commas]. rewrite IH. reflexivity.
  - cbn [strip_commas]. rewrite IH. reflexivity.
Qed.

Lemma strip_replace_commas (s : string) :
  strip_commas (replace_commas s) = strip_commas s.
Proof.
  destruct s as [|a rest]; [reflexivity|].
  cbn [replace_commas strip_commas]. rewrite strip_commas_from. reflexivity.
Qed.

(** [formatNumber] only adds commas: with the commas removed, the text is
    the digits that [toString] printed; and the number [0] prints as ["0"]
    whatever [toString] does. *)
Theorem formatNumber_only_adds_commas (toString : Z -> string) (num : Z) :
  formatNumber toString 0 = "0"
  /\ strip_commas (formatNumber toString num)
     = if Z.eqb num 0 then "0" else strip_commas (toString num).
Proof.
  split; [reflexivity|]. unfold formatNumber.
  destruct (Z.eqb num 0); [reflexivity|]. apply strip_replace_commas.
Qed.

Lemma digit_run_all_digits (s : string) :
  all_digits s = true -> digit_run s = String.length s.
Proof.
  induction s as [|a rest IH]; simpl; [reflexivity|].
  intros H. apply andb_true_iff in H as [Ha Hr]. rewrite Ha, (IH Hr). reflexivity.
Qed.

Lemma digit_run_app (u v : string) :
  all_digits u = true -> digit_run (u ++ v) = (String.length u + digit_run v)%nat.
Proof.
  induction u as [|a rest IH]; simpl; [reflexivity|].
  intros H. apply andb_true_iff in H as [Ha Hr]. rewrite Ha, (IH Hr). reflexivity.
Qed.

Lemma is_digit_word (a : ascii) : is_digit a = true -> is_word a = true.
Proof. intros H. unfold is_word. rewrite H. reflexivity. Qed.

(** No comma enters a run of at most two digits. *)
Lemma commas_from_short (prev : ascii) (s : string) :
  all_digits s = true -> (String.length s <= 2)%nat -> commas_from prev s = s.
Proof.
  revert prev. induction s as [|a rest IH]; intros prev Hd Hl; [reflexivity|].
  cbn [commas_from]. unfold groups_of_three.
  rewrite (digit_run_all_digits _ Hd).
  simpl in Hd. apply andb_true_iff in Hd as [Ha Hr].
  simpl in Hl.
  assert (Hm : Nat.eqb (Nat.modulo (String.length (String a rest)) 3) 0 = false).
  { destruct rest as [|b [|c rest']]; simpl in *; try reflexivity; lia. }
  rewrite Hm, ?andb_false_r.
  rewrite IH; [reflexivity | exact Hr | lia].
Qed.

Lemma commas_from_three (prev : ascii) (v : string) :
  is_word prev = true -> all_digits v = true -> String.length v = 3%nat ->
  commas_from prev v = String "," v.
Proof.
  intros Hp Hd Hl.
  destruct v as [|a rest]; [discriminate|].
  cbn [commas_from]. unfold groups_of_three.
  rewrite (digit_run_all_digits _ Hd), Hl, Hp. cbn [Nat.ltb Nat.leb Nat.modulo Nat.eqb andb].
  simpl in Hd. apply andb_true_iff in Hd as [Ha Hr].
  change (Nat.eqb (Nat.modulo 3 3) 0) with true. cbn [andb].
  rewrite commas_from_short; [reflexivity | exact Hr | simpl in Hl; lia].
Qed.

Lemma commas_from_app (prev : ascii) (u v : string) :
  is_word prev = true -> all_digits u = true -> all_digits v = true ->
  String.length v = 3%nat ->
  commas_from prev (u ++ v) = commas_from prev u ++ String "," v.
Proof.
  intros Hp Hu Hv Hl. revert prev Hp.
  induction u as [|a rest IH]; intros prev Hp.
  - simpl. apply commas_from_three; assumption.
  - simpl in Hu. apply andb_true_iff in Hu as [Ha Hr].
    change (String a rest ++ v) with (String a (rest ++ v)).
    cbn [commas_from].
    assert (Hg : groups_of_three (String a (rest ++ v)) = groups_of_three (String a rest)).
    { unfold groups_of_three. cbn [digit_run]. rewrite Ha.
      rewrite (digit_run_app _ _ Hr), (digit_run_all_digits _ Hv), Hl.
      rewrite (digit_run_all_digits _ Hr).
      replace (S (String.length rest + 3)) with (S (String.length rest) + 1 * 3)%nat by lia.
      rewrite Nat.Div0.mod_add. reflexivity. }
    rewrite Hg, (IH Hr a (is_digit_word _ Ha)).
    destruct (is_word prev && groups_of_three (String a rest)); reflexivity.
Qed.

Lemma all_digits_app (u v : string) :
  all_digits (u ++ v) = all_digits u && all_digits v.
Proof.
  induction u as [|a r IH]; simpl; [reflexivity|].
  rewrite IH. apply andb_assoc.
Qed.

(** On a non-zero number that [toString] prints as plain digits,
    [formatNumber] leaves up to three digits alone, and otherwise sets the
    last three digits off by a comma and formats the digits before them
    the same way. *)
Theorem formatNumber_groups (toString : Z -> string) (num : Z) :
  num <> 0 ->
  all_digits (toString num) = true ->
  ((String.length (toString num) <= 3)%nat ->
     formatNumber toString num = toString num)
  /\ (forall u v, toString num = u ++ v -> u <> "" -> String.length v = 3%nat ->
        formatNumber toString num = replace_commas u ++ "," ++ v).
Proof.
  intros Hn Hd. unfold formatNumber.
  apply Z.eqb_neq in Hn. rewrite Hn. split.
  - intros Hle. destruct (toString num) as [|a rest]; [reflexivity|].
    cbn [replace_commas]. simpl in Hd. apply andb_true_iff in Hd as [Ha Hr].
    rewrite commas_from_short; [reflexivity | exact Hr | simpl in Hle; lia].
  - intros u v E Hne Hl. rewrite E in Hd |- *.
    rewrite all_digits_app in Hd. apply andb_true_iff in Hd as [Hu Hv].
    destruct u as [|a rest]; [congruence|].
    simpl in Hu. apply andb_true_iff in Hu as [Ha Hr].
    change (String a rest ++ v) with (String a (rest ++ v)).
    cbn [replace_commas].
    rewrite (commas_from_app a rest v (is_digit_word _ Ha) Hr Hv Hl). reflexivity.
Qed.

Lemma formatNumber_groups_witness :
  formatNumber integer_toString 1234567 = "1,234,567"
  /\ formatNumber integer_toString 999 = "999".
Proof.
  split.
  - destruct (formatNumber_groups integer_toString 1234567) as [_ H].
    + discriminate.
    + vm_compute. reflexivity.
    + apply (H "1234" "567").
      * vm_compute. reflexivity.
      * discriminate.
      * reflexivity.
  - destruct (formatNumber_groups integer_toString 999) as [H _].
    + discriminate.
    + vm_compute. reflexivity.
    + apply H. vm_compute. lia.
Defined.

Example formatNumber_negative : formatNumber integer_toString (-1234) = "-1,234".
Proof. vm_compute. reflexivity. Qed.

(** ** [formatDate] off the calendar format *)

Lemma split_no_slash (s : string) : has_slash s = false -> split "/" s = [s].
Proof.
  induction s as [|a rest IH]; simpl; [reflexivity|].
  intros H. apply orb_false_iff in H as [Ha Hr]. rewrite Ha, (IH Hr). reflexivity.
Qed.

(** A key already in month/day form is kept as it is, and a key without any
    slash gets the text [undefined] for its day. *)
Theorem formatDate_short_keys (m d : string) :
  has_slash m = false -> has_slash d = false ->
  formatDate (m ++ "/" ++ d) = m ++ "/" ++ d
  /\ formatDate m = m ++ "/undefined".
Proof.
  intros Hm Hd. unfold formatDate. split.
  - change (m ++ "/" ++ d) with (m ++ String "/" d).
    rewrite (split_segment _ _ Hm), (split_no_slash _ Hd). reflexivity.
  - rewrite (split_no_slash _ Hm). reflexivity.
Qed.

Lemma formatDate_short_keys_witness :
  formatDate "3/1" = "3/1" /\ formatDate "3" = "3/undefined".
Proof. apply (formatDate_short_keys "3" "1"); reflexivity. Defined.

(** ** [sortCountriesByCases] *)

Section SortBy.
Context {A : Type} (compare : A -> A -> Z).

Lemma insert_by_perm (x : A) (l : list A) : Permutation (x :: l) (insert_by compare x l).
Proof.
  induction l as [|y rest IH]; simpl; [reflexivity|].
  destruct (Z.leb (compare x y) 0); [reflexivity|].
  rewrite perm_swap. apply perm_skip. exact IH.
Qed.

Lemma sort_by_perm (l : list A) : Permutation l (sort_by compare l).
Proof.
  induction l as [|x rest IH]; simpl; [reflexivity|].
  rewrite <- insert_by_perm. apply perm_skip. exact IH.
Qed.

Lemma insert_by_filter (keep : A -> bool) (x : A) (l : list A) :
  (forall y, keep x = true -> keep y = true -> Z.leb (compare x y) 0 = true) ->
  List.filter keep (insert_by compare x l) = List.filter keep (x :: l).
Proof.
  intros Hk. induction l as [|y rest IH]; [reflexivity|].
  cbn [insert_by]. destruct (Z.leb (compare x y) 0) eqn:E; [reflexivity|].
  cbn [List.filter] in *. rewrite IH.
  destruct (keep x) eqn:Kx, (keep y) eqn:Ky; try reflexivity.
  rewrite (Hk y eq_refl Ky) in E. discriminate.
Qed.

End SortBy.

Lemma insert_by_cases_sorted (x : CountryModel) (l : list CountryModel) :
  StronglySorted (fun a b => cases b <= cases a) l ->
  StronglySorted (fun a b => cases b <= cases a)
    (insert_by (fun a b => cases b - cases a) x l).
Proof.
  induction 1 as [|y rest Hs IH Hall]; simpl.
  - constructor; constructor.
  - destruct (Z.leb_spec (cases y - cases x) 0) as [Hle | Hgt].
    + constructor; [constructor; assumption|].
      constructor; [lia|].
      eapply List.Forall_impl; [|exact Hall]. simpl. intros b Hb. lia.
    + constructor; [exact IH|].
      eapply Permutation_Forall; [apply insert_by_perm|].
      constructor; [lia | exact Hall].
Qed.

(** [sortCountriesByCases] returns the countries it was given, each once,
    in non-increasing order of [cases], and countries with the same number
    of cases keep the order they came in. *)
Theorem sortCountriesByCases_spec (countries : list CountryModel) :
  Permutation countries (sortCountriesByCases countries)
  /\ StronglySorted (fun a b => cases b <= cases a) (sortCountriesByCases countries)
  /\ (forall n, List.filter (fun c => Z.eqb (cases c) n) (sortCountriesByCases countries)
                = List.filter (fun c => Z.eqb (cases c) n) countries).
Proof.
  unfold sortCountriesByCases. split; [apply sort_by_perm|]. split.
  - induction countries as [|x rest IH]; simpl; [constructor|].
    apply insert_by_cases_sorted. exact IH.
  - intros n. induction countries as [|x rest IH]; [reflexivity|].
    cbn [sort_by]. rewrite insert_by_filter.
    + cbn [List.filter]. rewrite IH. reflexivity.
    + intros y Hx Hy. apply Z.eqb_eq in Hx, Hy. apply Z.leb_le. lia.
Qed.

(** ** [getLatestData] and [getTotalCases] *)

Lemma get_app_miss (front : Series) (k : string) (rest : Series) :
  ~ In k (keys front) -> get (front ++ rest)%list k = get rest k.
Proof.
  induction front as [|[k' v'] front IH]; simpl; [reflexivity|].
  intros H. destruct (String.eqb_spec k' k) as [-> | Hne]; [tauto|].
  apply IH. tauto.
Qed.

Lemma last_date_snoc (front : list string) (k : string) :
  last_date (front ++ [k])%list = Some k.
Proof.
  unfold last_date. rewrite length_app. simpl.
  replace (length front + 1 - 1)%nat with (length front) by lia.
  rewrite nth_error_app2 by lia. rewrite Nat.sub_diag. reflexivity.
Qed.

(** For a cases series that ends with the entry [k: v], [k] not being a key
    before it, the latest data is dated [k], the total is [v], and the
    three numbers of the latest data are those of the last chart point. *)
Theorem getLatestData_last_entry (h : HistoricalDataModel)
    (front : Series) (k : string) (v : Z) :
  tl_cases (timeline h) = (front ++ [(k, v)])%list ->
  ~ In k (keys front) ->
  ld_date (getLatestData h) = Some k
  /\ getTotalCases h = v
  /\ ld_cases (getLatestData h) = v
  /\ nth_error (getChartData h) (length front) =
       Some {| cp_date := formatDate k;
               cp_cases := ld_cases (getLatestData h);
               cp_deaths := ld_deaths (getLatestData h);
               cp_recovered := ld_recovered (getLatestData h) |}.
Proof.
  intros E Hk.
  assert (Hkeys : keys (tl_cases (timeline h)) = (keys front ++ [k])%list).
  { rewrite E. unfold keys. rewrite map_app. reflexivity. }
  assert (Hlast : last_date (keys (tl_cases (timeline h))) = Some k).
  { rewrite Hkeys. apply last_date_snoc. }
  assert (Hget : or_num (get (tl_cases (timeline h)) k) 0 = v).
  { rewrite E, (get_app_miss _ _ _ Hk). simpl. rewrite String.eqb_refl.
    simpl. destruct (Z.eqb_spec v 0); congruence. }
  unfold getLatestData, getTotalCases. cbn [ld_date ld_cases ld_deaths ld_recovered].
  rewrite Hlast. cbn [property_name].
  split; [reflexivity|]. split; [exact Hget|]. split; [exact Hget|].
  unfold getChartData. rewrite nth_error_map, Hkeys.
  rewrite nth_error_app2 by (unfold keys; rewrite length_map; lia).
  unfold keys at 1. rewrite length_map, Nat.sub_diag. reflexivity.
Qed.

Lemma getLatestData_last_entry_witness :
  let h := newHistoricalDataModel sample_series in
  ld_date (getLatestData h) = Some "3/2/21"
  /\ getTotalCases h = 20
  /\ ld_cases (getLatestData h) = 20
  /\ nth_error (getChartData h) 1%nat =
       Some {| cp_date := formatDate "3/2/21";
               cp_cases := ld_cases (getLatestData h);
               cp_deaths := ld_deaths (getLatestData h);
               cp_recovered := ld_recovered (getLatestData h) |}.
Proof.
  apply (getLatestData_last_entry (newHistoricalDataModel sample_series)
           [("3/1/21", 10)] "3/2/21" 20).
  - reflexivity.
  - simpl. intros [H | []]. discriminate.
Defined.

(** A payload without a timeline, or with an empty cases series, yields no
    chart point, no latest date, and zero latest and total cases. *)
Theorem empty_series_defaults (data : HistoricalData) :
  series_or_empty (hd_timeline data) rt_cases = [] ->
  getChartData (newHistoricalDataModel data) = []
  /\ ld_date (getLatestData (newHistoricalDataModel data)) = None
  /\ ld_cases (getLatestData (newHistoricalDataModel data)) = 0
  /\ getTotalCases (newHistoricalDataModel data) = 0.
Proof.
  intros E.
  unfold getChartData, getLatestData, getTotalCases, newHistoricalDataModel.
  cbn [timeline tl_cases ld_date ld_cases]. rewrite E. repeat split; reflexivity.
Qed.

Lemma empty_series_defaults_witness :
  let data := mkHistoricalData (Some "X") None None in
  getChartData (newHistoricalDataModel data) = []
  /\ ld_date (getLatestData (newHistoricalDataModel data)) = None
  /\ ld_cases (getLatestData (newHistoricalDataModel data)) = 0
  /\ getTotalCases (newHistoricalDataModel data) = 0.
Proof.
  apply (empty_series_defaults (mkHistoricalData (Some "X") None None)). reflexivity.
Defined.

(** ** The sampling of chart points *)

Lemma multiples_step (s i : nat) :
  (0 < s)%nat ->
  ((i + s) / s = (if Nat.eqb (i mod s) 0 then 1 else 0) + (i + s - 1) / s)%nat.
Proof.
  intros Hs.
  pose proof (Nat.div_mod_eq i s) as Hi.
  pose proof (Nat.mod_upper_bound i s ltac:(lia)) as Hr.
  rewrite <- (Nat.div_unique (i + s) s (S (i / s)) (i mod s) Hr ltac:(nia)).
  destruct (Nat.eqb_spec (i mod s) 0) as [E | E].
  - rewrite <- (Nat.div_unique (i + s - 1) s (i / s) (s - 1) ltac:(lia) ltac:(nia)).
    reflexivity.
  - rewrite <- (Nat.div_unique (i + s - 1) s (S (i / s)) (i mod s - 1) ltac:(lia) ltac:(nia)).
    reflexivity.
Qed.

(** The indices [i, i + 1, ...] of [l] hold as many multiples of [s] as
    there are between [i] and [i + length l]. *)
Lemma filter_index_length {A} (s i : nat) (l : list A) :
  (0 < s)%nat ->
  length (filter_index (fun index => Nat.eqb (Nat.modulo index s) 0) i l)
  = ((i + length l + s - 1) / s - (i + s - 1) / s)%nat.
Proof.
  intros Hs. revert i. induction l as [|x rest IH]; intros i.
  - simpl. replace (i + 0 + s - 1)%nat with (i + s - 1)%nat by lia. lia.
  - cbn [filter_index length].
    pose proof (multiples_step s i Hs) as Hm.
    assert (Hmono : ((i + s) / s <= (S i + length rest + s - 1) / s)%nat).
    { apply Nat.Div0.div_le_mono. lia. }
    replace (i + S (length rest) + s - 1)%nat with (S i + length rest + s - 1)%nat by lia.
    destruct (Nat.eqb (i mod s) 0); cbn [length]; rewrite IH;
      replace (S i + s - 1)%nat with (i + s)%nat by lia; lia.
Qed.

Lemma filter_index_all {A} (keep : nat -> bool) (i : nat) (l : list A) :
  (forall j, keep j = true) -> filter_index keep i l = l.
Proof.
  intros H. revert i. induction l as [|x rest IH]; intros i; simpl; [reflexivity|].
  rewrite H, IH. reflexivity.
Qed.

Lemma filter_index_sublist {A} (keep : nat -> bool) (i : nat) (l : list A) :
  sublist (filter_index keep i l) l.
Proof.
  revert i. induction l as [|x rest IH]; intros i; simpl; [constructor|].
  destruct (keep i); [apply sublist_skip | apply sublist_cons]; apply IH.
Qed.

(** Of a non-empty list of chart points the chart draws at most 30, taken
    in order from the list and starting with its first point; a list of at
    most 30 points is drawn whole. *)
Theorem sampledData_spec {A} (data : list A) :
  data <> [] ->
  (length (sampledData data) <= 30)%nat
  /\ hd_error (sampledData data) = hd_error data
  /\ sublist (sampledData data) data
  /\ ((length data <= 30)%nat -> sampledData data = data).
Proof.
  intros Hne. unfold sampledData, sampling_step.
  assert (Hn : (0 < length data)%nat) by (destruct data; [congruence | simpl; lia]).
  set (n := length data) in *. set (s := ((n + 29) / 30)%nat).
  assert (Hs : (0 < s)%nat).
  { unfold s. apply Nat.div_str_pos. lia. }
  assert (Hcover : (n <= 30 * s)%nat).
  { unfold s. pose proof (Nat.div_mod_eq (n + 29) 30) as E.
    pose proof (Nat.mod_upper_bound (n + 29) 30 ltac:(lia)). lia. }
  split; [|split; [|split]].
  - rewrite (filter_index_length s 0 data Hs). fold n.
    assert (((0 + n + s - 1) / s < 31)%nat); [|lia].
    apply Nat.Div0.div_lt_upper_bound. nia.
  - destruct data as [|x rest]; [congruence|]. cbn [filter_index].
    rewrite Nat.Div0.mod_0_l. reflexivity.
  - apply filter_index_sublist.
  - intros Hle. apply filter_index_all. intros j.
    assert (s = 1%nat) as ->.
    { unfold s. symmetry. apply (Nat.div_unique (n + 29) 30 1 (n - 1)); lia. }
    rewrite Nat.mod_1_r. reflexivity.
Qed.

Lemma sampledData_spec_witness :
  (length (sampledData (seq 0 61)) <= 30)%nat
  /\ hd_error (sampledData (seq 0 61)) = Some O
  /\ sampledData [1; 2; 3]%nat = [1; 2; 3]%nat.
Proof.
  destruct (sampledData_spec (seq 0 61)) as (H1 & H2 & _); [discriminate|].
  destruct (sampledData_spec [1; 2; 3]%nat) as (_ & _ & _ & H3); [discriminate|].
  split; [exact H1|]. split; [exact H2|]. apply H3. simpl. lia.
Defined.

(** * Further properties of the controller *)

Ltac same_store_reads :=
  cbn [log external probed written];
  rewrite ?store_reads_snoc, ?app_nil_r; reflexivity.

(** Runs a call to its end, splitting on every answer it depends on. *)
Ltac settle :=
  repeat (cbn beta iota zeta delta [negb andb orb r_success r_data]; run_step);
  cbn beta iota zeta delta [negb andb orb r_success r_data].

Ltac explore := settle; repeat (split_case; settle).

(** The same, rewriting with [known] facts before each split. *)
Ltac explore_with known :=
  repeat (settle; first [progress known | split_case]); settle.

(** ** A forced refresh *)



(** ** When no source has the data *)

(** Closes a branch in which a provider without bodies served one. *)
Ltac no_body_contradiction :=
  exfalso;
  match goal with
  | H : forall n, no_body (http_countries _ n), E : http_countries _ ?x = inr (Some _) |- _ =>
      specialize (H x); rewrite E in H; exact H
  | H : forall n, no_body (http_country _ n _), E : http_country _ ?x _ = inr (Some _) |- _ =>
      specialize (H x); rewrite E in H; exact H
  | H : forall n, no_body (http_historical _ n _ _),
    E : http_historical _ ?x _ _ = inr (Some _) |- _ =>
      specialize (H x); rewrite E in H; exact H
  end.



(** ** When only the cache has the data *)

(** When the remote provider yields no body, online or not, and the store
    answers its reads, each operation serves what the cache holds:
    the cached list, the cached entry of that exact name, the cached series
    of that country. *)
Theorem remote_failure_falls_back (env : Env) (s : State) (c : option bool)
    (forceRefresh : bool) (countryName days : string) :
  netinfo env (tick s) = inr c ->
  (forall n, getItem_fault env n = None) ->
  (forall n, no_body (http_countries env n)) ->
  (forall n, no_body (http_country env n countryName)) ->
  (forall n, no_body (http_historical env n countryName days)) ->
  (forall l, cachedCountries s = Some l ->
     exists r s', fetchAllCountries env forceRefresh s = (Ok r, s')
       /\ success r = true /\ fromCache r = Some true
       /\ data r = fromArray (clock env (tick s')) l)
  /\ (forall l entry, cachedCountries s = Some l ->
        List.find (named countryName) l = Some entry ->
        exists r s', fetchCountryDetails env countryName s = (Ok r, s')
          /\ success r = true /\ fromCache r = Some true
          /\ data r = Some (newCountryModel (clock env (tick s')) entry))
  /\ (forall h, cachedHistorical countryName s = Some h ->
        exists r s', fetchHistoricalData env countryName days s = (Ok r, s')
          /\ success r = true /\ fromCache r = Some true
          /\ data r = Some (newHistoricalDataModel h)).
Proof.
  intros Hp Hg Hall Hone Hhist. split; [|split].
  - intros l Hc. open_controller. rewrite (run_checkConnection _ _ _ Hp).
    explore_with ltac:(rewrite ?Hc);
      try no_body_contradiction; eexists _, _; repeat split.
  - intros l entry Hc Hfind. open_controller. rewrite (run_checkConnection _ _ _ Hp).
    explore_with ltac:(rewrite ?Hc, ?Hfind);
      try no_body_contradiction; eexists _, _; repeat split.
  - intros h Hh. open_controller. rewrite (run_checkConnection _ _ _ Hp).
    explore_with ltac:(rewrite ?Hh);
      try no_body_contradiction; eexists _, _; repeat split.
Qed.

Lemma remote_failure_falls_back_witness :
  (exists r s', fetchAllCountries api_down_env true (start fresh_store) = (Ok r, s')
     /\ success r = true /\ fromCache r = Some true
     /\ data r = fromArray (clock api_down_env (tick s')) [onlyCountry "X"])
  /\ (exists r s', fetchCountryDetails api_down_env "X" (start fresh_store) = (Ok r, s')
        /\ success r = true /\ fromCache r = Some true
        /\ data r = Some (newCountryModel (clock api_down_env (tick s')) (onlyCountry "X")))
  /\ (exists r s', fetchHistoricalData api_down_env "X" "all" (start fresh_store) = (Ok r, s')
        /\ success r = true /\ fromCache r = Some true
        /\ data r = Some (newHistoricalDataModel sample_series)).
Proof.
  destruct (remote_failure_falls_back api_down_env (start fresh_store) (Some true)
              true "X" "all") as (Hall & Hone & Hhist).
  - reflexivity.
  - intros n. reflexivity.
  - intros n. exact I.
  - intros n. exact I.
  - intros n. exact I.
  - split; [|split].
    + apply Hall. vm_compute. reflexivity.
    + apply (Hone [onlyCountry "X"]); vm_compute; reflexivity.
    + apply Hhist. vm_compute. reflexivity.
Defined.

(** ** When the probe itself fails *)



(** ** Cache slots and their keys *)

Lemma historical_key_inj (a b : string) : historical_key a = historical_key b -> a = b.
Proof. unfold historical_key. simpl. intros H. injection H as H. exact H. Qed.

Lemma historical_key_not_list (name : string) :
  historical_key name <> STORAGE_KEYS.COUNTRIES_DATA.
Proof. unfold historical_key. simpl. discriminate. Qed.

Lemma historical_key_not_marker (name : string) :
  historical_key name <> STORAGE_KEYS.LAST_UPDATE.
Proof. unfold historical_key. simpl. discriminate. Qed.

Lemma cachedHistorical_written_same name h s :
  cachedHistorical name (written (historical_key name) (PHistorical h) s) = Some h.
Proof.
  unfold cachedHistorical, written; cbn [store]. rewrite lookup_insert_eq. reflexivity.
Qed.

Lemma cachedHistorical_written_other name other p s :
  other <> name ->
  cachedHistorical other (written (historical_key name) p s) = cachedHistorical other s.
Proof.
  intros H. unfold cachedHistorical, written; cbn [store].
  rewrite lookup_insert_ne; [reflexivity|].
  intros E. apply historical_key_inj in E. congruence.
Qed.

Lemma cachedHistorical_written_list name p s :
  cachedHistorical name (written STORAGE_KEYS.COUNTRIES_DATA p s) = cachedHistorical name s.
Proof.
  unfold cachedHistorical, written; cbn [store].
  rewrite lookup_insert_ne; [reflexivity|].
  intros E. symmetry in E. exact (historical_key_not_list _ E).
Qed.

Lemma cachedHistorical_written_marker name p s :
  cachedHistorical name (written STORAGE_KEYS.LAST_UPDATE p s) = cachedHistorical name s.
Proof.
  unfold cachedHistorical, written; cbn [store].
  rewrite lookup_insert_ne; [reflexivity|].
  intros E. symmetry in E. exact (historical_key_not_marker _ E).
Qed.

Lemma cachedCountries_written_historical name p s :
  cachedCountries (written (historical_key name) p s) = cachedCountries s.
Proof.
  unfold cachedCountries, written; cbn [store].
  rewrite lookup_insert_ne; [reflexivity | apply historical_key_not_list].
Qed.

Lemma marker_written_historical name p s :
  marker (written (historical_key name) p s) = marker s.
Proof.
  unfold marker, written; cbn [store].
  rewrite lookup_insert_ne; [reflexivity | apply historical_key_not_marker].
Qed.

Lemma marker_written_list p s :
  marker (written STORAGE_KEYS.COUNTRIES_DATA p s) = marker s.
Proof.
  unfold marker, written; cbn [store].
  rewrite lookup_insert_ne by discriminate. reflexivity.
Qed.

(** Normalises what the slots hold after a run. *)
Ltac slots :=
  repeat first
    [ rewrite cachedHistorical_written_same
    | rewrite cachedHistorical_written_list
    | rewrite cachedHistorical_written_marker
    | rewrite cachedHistorical_written_other by assumption
    | rewrite cachedCountries_written_historical
    | rewrite cachedCountries_written_marker
    | rewrite cachedCountries_written_list
    | rewrite marker_written_historical
    | rewrite marker_written_list
    | rewrite marker_written
    | rewrite cachedHistorical_external | rewrite cachedHistorical_probed
    | rewrite cachedCountries_external | rewrite cachedCountries_probed
    | rewrite marker_external | rewrite marker_probed ].

(** ** What the two save operations leave behind *)

(** [saveHistoricalData] either reports [true] and the slot of that country
    then holds the series, or reports [false] and the store is as it was;
    either way the slots of other countries, the country list and the
    marker are untouched. *)
Theorem saveHistoricalData_contract (env : Env) (countryName : string)
    (h : HistoricalData) (s : State) :
  let r := saveHistoricalData env countryName h s in
  ((fst r = Ok true /\ cachedHistorical countryName (snd r) = Some h)
   \/ (fst r = Ok false /\ store (snd r) = store s))
  /\ (forall other, other <> countryName ->
        cachedHistorical other (snd r) = cachedHistorical other s)
  /\ cachedCountries (snd r) = cachedCountries s
  /\ marker (snd r) = marker s.
Proof.
  cbn zeta. rewrite run_saveHistoricalData.
  destruct (setItem_fault env (tick s)); cbn [fst snd].
  - split; [right; split; reflexivity|]. repeat split.
  - split; [left; split; [reflexivity | apply cachedHistorical_written_same]|].
    split; [|split].
    + intros other Hne. slots. reflexivity.
    + slots. reflexivity.
    + slots. reflexivity.
Qed.

(** [saveCountriesData] either reports [true] and the list slot then holds
    the list, the marker being the clock read after that write or, if its
    own write was rejected, what it was; or it reports [false] and the store
    is as it was: the marker is never written without the list.  No
    historical slot is touched. *)
Theorem saveCountriesData_contract (env : Env) (l : list CountryData) (s : State) :
  let r := saveCountriesData env l s in
  ((fst r = Ok true /\ cachedCountries (snd r) = Some l
    /\ (marker (snd r) = Some (clock env (S (tick s))) \/ marker (snd r) = marker s))
   \/ (fst r = Ok false /\ store (snd r) = store s))
  /\ (forall name, cachedHistorical name (snd r) = cachedHistorical name s).
Proof.
  cbn zeta. rewrite run_saveCountriesData.
  destruct (setItem_fault env (tick s)); cbn [fst snd].
  - split; [right; split; reflexivity | reflexivity].
  - cbn zeta. destruct (setItem_fault env (S (tick s))); cbn [fst snd].
    + split; [left | intros name; slots; reflexivity].
      split; [reflexivity|]. split; [slots; reflexivity|].
      right. slots. reflexivity.
    + split; [left | intros name; slots; reflexivity].
      split; [reflexivity|]. split; [slots; reflexivity|].
      left. slots. reflexivity.
Qed.

(** ** Which slots an operation can change *)

Ltac no_write :=
  split; [reflexivity|];
  cbn [log external probed written];
  rewrite ?store_writes_snoc; cbn [is_store_write]; rewrite ?app_nil_r; reflexivity.

(** [fetchCountryDetails] never writes to the store: a record served by the
    remote provider is not cached. *)
Theorem fetchCountryDetails_never_writes (env : Env) (countryName : string) (s : State) :
  unchanged s (snd (fetchCountryDetails env countryName s)).
Proof.
  open_controller.
  destruct (netinfo env (tick s)) as [e | c] eqn:Hp.
  - rewrite (run_checkConnection_throw _ _ _ Hp). cbn [snd]. no_write.
  - rewrite (run_checkConnection _ _ _ Hp). explore; cbn [snd]; no_write.
Qed.

(** [fetchAllCountries] never changes a historical slot, and
    [fetchHistoricalData] changes neither the country list, nor the marker,
    nor the slot of another country. *)
Theorem fetch_operations_keep_to_their_slots (env : Env) (forceRefresh : bool)
    (countryName days : string) (s : State) :
  (forall name,
     cachedHistorical name (snd (fetchAllCountries env forceRefresh s))
     = cachedHistorical name s)
  /\ cachedCountries (snd (fetchHistoricalData env countryName days s)) = cachedCountries s
  /\ marker (snd (fetchHistoricalData env countryName days s)) = marker s
  /\ (forall other, other <> countryName ->
        cachedHistorical other (snd (fetchHistoricalData env countryName days s))
        = cachedHistorical other s).
Proof.
  split; [|split; [|split]].
  - intros name. open_controller.
    destruct (netinfo env (tick s)) as [e | c] eqn:Hp.
    + rewrite (run_checkConnection_throw _ _ _ Hp). explore; cbn [snd]; slots; reflexivity.
    + rewrite (run_checkConnection _ _ _ Hp). explore; cbn [snd]; slots; reflexivity.
  - open_controller.
    destruct (netinfo env (tick s)) as [e | c] eqn:Hp.
    + rewrite (run_checkConnection_throw _ _ _ Hp). explore; cbn [snd]; slots; reflexivity.
    + rewrite (run_checkConnection _ _ _ Hp). explore; cbn [snd]; slots; reflexivity.
  - open_controller.
    destruct (netinfo env (tick s)) as [e | c] eqn:Hp.
    + rewrite (run_checkConnection_throw _ _ _ Hp). explore; cbn [snd]; slots; reflexivity.
    + rewrite (run_checkConnection _ _ _ Hp). explore; cbn [snd]; slots; reflexivity.
  - intros other Hne. open_controller.
    destruct (netinfo env (tick s)) as [e | c] eqn:Hp.
    + rewrite (run_checkConnection_throw _ _ _ Hp). explore; cbn [snd]; slots; reflexivity.
    + rewrite (run_checkConnection _ _ _ Hp). explore; cbn [snd]; slots; reflexivity.
Qed.

Lemma fetch_operations_keep_to_their_slots_witness :
  cachedHistorical "X" (snd (fetchHistoricalData serving_env "Y" "all" (start fresh_store)))
  = Some sample_series.
Proof.
  destruct (fetch_operations_keep_to_their_slots serving_env false "Y" "all"
              (start fresh_store)) as (_ & _ & _ & H).
  rewrite (H "X"); [vm_compute; reflexivity | discriminate].
Defined.

(** ** A record served by the remote provider *)

(** Online, when the remote get-one call returns a record,
    [fetchCountryDetails] returns its model with no [fromCache] field, after
    the probe and that one call: the store is not read, whatever it holds. *)
Theorem fetchCountryDetails_remote (env : Env) (countryName : string)
    (s : State) (c : CountryData) :
  netinfo env (tick s) = inr (Some true) ->
  http_country env (S (tick s)) countryName = inr (Some c) ->
  fetchCountryDetails env countryName s =
    (Ok (mkFetchResult true (Some (newCountryModel (clock env (S (S (tick s)))) c))
           None None None),
     external (EvGetCountry countryName) (probed (Some true) s)).
Proof.
  intros Hp Hc. open_controller.
  rewrite (run_checkConnection _ _ _ Hp). cbn [connected]. settle.
  cbn [tick probed]. rewrite Hc. settle. reflexivity.
Qed.

Lemma fetchCountryDetails_remote_witness :
  fetchCountryDetails serving_env "X" (start fresh_store) =
    (Ok (mkFetchResult true (Some (newCountryModel sample_now (onlyCountry "X")))
           None None None),
     external (EvGetCountry "X") (probed (Some true) (start fresh_store))).
Proof.
  apply (fetchCountryDetails_remote serving_env "X" (start fresh_store)); reflexivity.
Defined.

(** ** A series fetched online and read back offline *)

(** Online, when the remote get-historical call returns a series and the
    store accepts the write, [fetchHistoricalData] reads the cache, calls
    the provider and writes the slot, in that order, and returns the fresh
    model; a later call that finds the device offline returns the same
    model from the cache. *)
Theorem fetchHistoricalData_round_trip (env : Env) (countryName days days' : string)
    (s : State) (h : HistoricalData) (c : option bool) :
  netinfo env (tick s) = inr (Some true) ->
  http_historical env (S (S (tick s))) countryName days = inr (Some h) ->
  setItem_fault env (S (S (S (tick s)))) = None ->
  netinfo env (S (S (S (S (tick s))))) = inr c ->
  offline c ->
  getItem_fault env (S (S (S (S (S (tick s)))))) = None ->
  exists s1 s2,
    fetchHistoricalData env countryName days s =
      (Ok (mkFetchResult true (Some (newHistoricalDataModel h)) (Some false) None None), s1)
    /\ log s1 = (log s ++ [EvProbe; EvGetItem (historical_key countryName);
                           EvGetHistorical countryName days;
                           EvSetItem (historical_key countryName)])%list
    /\ fetchHistoricalData env countryName days' s1 =
         (Ok (mkFetchResult true (Some (newHistoricalDataModel h)) (Some true) None None), s2).
Proof.
  intros Hp Hh Hw Hp2 Hoff Hr.
  eexists _, _. split; [|split].
  - open_controller. rewrite (run_checkConnection _ _ _ Hp). cbn [connected]. settle.
    cbn [tick external probed]. rewrite Hh. settle.
    cbn [tick external probed]. rewrite Hw. reflexivity.
  - cbn [log written external probed]. rewrite <- !app_assoc. reflexivity.
  - open_controller. erewrite run_checkConnection by (cbn [tick written external probed]; exact Hp2).
    rewrite (offline_connected c Hoff). settle.
    unfold read_at. cbn [tick written external probed]. rewrite Hr. slots. reflexivity.
Qed.

Lemma fetchHistoricalData_round_trip_witness :
  exists s1 s2,
    fetchHistoricalData going_offline_env "X" "30" (start ∅) =
      (Ok (mkFetchResult true (Some (newHistoricalDataModel sample_series))
             (Some false) None None), s1)
    /\ log s1 = (log (start ∅) ++ [EvProbe; EvGetItem (historical_key "X");
                                   EvGetHistorical "X" "30";
                                   EvSetItem (historical_key "X")])%list
    /\ fetchHistoricalData going_offline_env "X" "all" s1 =
         (Ok (mkFetchResult true (Some (newHistoricalDataModel sample_series))
                (Some true) None None), s2).
Proof.
  apply (fetchHistoricalData_round_trip going_offline_env "X" "30" "all" (start ∅)
           sample_series (Some false)); try reflexivity.
  unfold offline. discriminate.
Defined.

(** ** Two fetches in a row *)



(** ** Clearing the cache *)

Lemma run_clearAllData (clear_fault : nat -> option string) (s : State) :
  clearAllData clear_fault s =
    match clear_fault (tick s) with
    | Some _ => (Ok false, {| tick := S (tick s); store := store s;
                              log := log s; isOnline := isOnline s |})
    | None => (Ok true, {| tick := S (tick s); store := ∅;
                           log := log s; isOnline := isOnline s |})
    end.
Proof.
  unfold clearAllData, clear, try_catch, bind, AsyncStorage_clear, ret.
  destruct (clear_fault (tick s)); reflexivity.
Qed.

(** [clearAllData] either reports [true] and every cache slot is then
    empty, or reports [false] and the store is as it was.  After a clear
    that reported [true], a fetch of the list made offline fails with "No
    data available". *)
Theorem clearAllData_contract (clear_fault : nat -> option string) (env : Env)
    (s : State) (forceRefresh : bool) (c : option bool) :
  let r := clearAllData clear_fault s in
  ((fst r = Ok true
    /\ cachedCountries (snd r) = None /\ marker (snd r) = None
    /\ (forall name, cachedHistorical name (snd r) = None))
   \/ (fst r = Ok false /\ store (snd r) = store s))
  /\ (fst r = Ok true ->
      netinfo env (tick (snd r)) = inr c -> offline c ->
      exists s', fetchAllCountries env forceRefresh (snd r) =
                   (Ok (mkFetchResult false [] None None (Some "No data available")), s')).
Proof.
  cbn zeta. rewrite run_clearAllData.
  destruct (clear_fault (tick s)) as [e|]; cbn [fst snd].
  - split; [right; split; reflexivity | discriminate].
  - split.
    + left. split; [reflexivity|].
      unfold cachedCountries, marker, cachedHistorical; cbn [store].
      rewrite !lookup_empty. repeat split.
    + intros _ Hp Hoff.
      set (s0 := {| tick := S (tick s); store := ∅; log := log s; isOnline := isOnline s |})
        in *.
      assert (Hc : cachedCountries s0 = None).
      { unfold cachedCountries, s0; cbn [store]. rewrite lookup_empty. reflexivity. }
      clearbody s0. open_controller. rewrite (run_checkConnection _ _ _ Hp).
      rewrite (offline_connected c Hoff).
      explore_with ltac:(rewrite ?Hc, ?read_at_none);
        eexists; reflexivity.
Qed.

Lemma clearAllData_contract_witness :
  exists s', fetchAllCountries offline_env false
               (snd (clearAllData (fun _ => None) (start fresh_store))) =
               (Ok (mkFetchResult false [] None None (Some "No data available")), s').
Proof.
  destruct (clearAllData_contract (fun _ => None) offline_env (start fresh_store)
              false (Some false)) as [_ H].
  apply H.
  - reflexivity.
  - reflexivity.
  - unfold offline. discriminate.
Defined.

(** ** When the remote provider is called *)

Ltac count_remote_calls :=
  cbn [snd log external probed written];
  rewrite ?remote_calls_snoc; cbn [is_remote]; rewrite ?app_nil_r; reflexivity.

(** Unless the probe answers online, none of the three operations calls the
    remote provider, whatever the store holds or answers. *)
Theorem not_online_never_calls_remote (env : Env) (s : State)
    (forceRefresh : bool) (countryName days : string) :
  netinfo env (tick s) <> inr (Some true) ->
  remote_calls (log (snd (fetchAllCountries env forceRefresh s))) = remote_calls (log s)
  /\ remote_calls (log (snd (fetchCountryDetails env countryName s))) = remote_calls (log s)
  /\ remote_calls (log (snd (fetchHistoricalData env countryName days s)))
     = remote_calls (log s).
Proof.
  intros Hoff.
  destruct (netinfo env (tick s)) as [e | c] eqn:Hp.
  - split; [|split]; open_controller; rewrite (run_checkConnection_throw _ _ _ Hp);
      explore; count_remote_calls.
  - assert (Hc : connected c = false) by (apply offline_connected; unfold offline; congruence).
    split; [|split]; open_controller; rewrite (run_checkConnection _ _ _ Hp), Hc;
      explore; count_remote_calls.
Qed.

Lemma not_online_never_calls_remote_witness :
  remote_calls (log (snd (fetchAllCountries offline_env true (start ∅)))) = []
  /\ remote_calls (log (snd (fetchCountryDetails probe_fault_env "X" (start ∅)))) = []
  /\ remote_calls (log (snd (fetchHistoricalData offline_env "X" "all" (start ∅)))) = [].
Proof.
  destruct (not_online_never_calls_remote offline_env (start ∅) true "X" "all")
    as (Hall & _ & Hhist); [discriminate|].
  destruct (not_online_never_calls_remote probe_fault_env (start ∅) true "X" "all")
    as (_ & Hone & _); [discriminate|].
  split; [exact Hall|]. split; [exact Hone | exact Hhist].
Defined.

(** While the marker read from the store is not stale, an unforced
    [fetchAllCountries] never calls the remote provider, whether or not the
    list slot is populated and whatever the probe answers. *)
Theorem fresh_marker_never_calls_remote (env : Env) (s : State) (m : Z) :
  (forall n, getItem_fault env n = None) ->
  marker s = Some m ->
  isDataStale (clock env (S (S (tick s)))) (Some m) CACHE_DURATION = false ->
  remote_calls (log (snd (fetchAllCountries env false s))) = remote_calls (log s).
Proof.
  intros Hg Hm Hf. open_controller.
  destruct (netinfo env (tick s)) as [e | c] eqn:Hp.
  - rewrite (run_checkConnection_throw _ _ _ Hp). explore; count_remote_calls.
  - rewrite (run_checkConnection _ _ _ Hp). settle. rewrite Hm.
    cbn [tick external probed]. rewrite Hf.
    explore_with ltac:(rewrite andb_false_r); count_remote_calls.
Qed.

Lemma fresh_marker_never_calls_remote_witness :
  remote_calls (log (snd (fetchAllCountries online_env false (start marker_only_store)))) = [].
Proof.
  apply (fresh_marker_never_calls_remote online_env (start marker_only_store)
           (sample_now - 600000)).
  - intros n. reflexivity.
  - vm_compute. reflexivity.
  - vm_compute. reflexivity.
Defined.

(** When the probe answers online, [fetchCountryDetails] and
    [fetchHistoricalData] each call the remote provider exactly once,
    however fresh the marker and whatever the cache holds. *)
Theorem online_record_and_series_call_remote_once (env : Env) (s : State)
    (countryName days : string) :
  netinfo env (tick s) = inr (Some true) ->
  remote_calls (log (snd (fetchCountryDetails env countryName s)))
  = (remote_calls (log s) ++ [EvGetCountry countryName])%list
  /\ remote_calls (log (snd (fetchHistoricalData env countryName days s)))
     = (remote_calls (log s) ++ [EvGetHistorical countryName days])%list.
Proof.
  intros Hp. split; open_controller; rewrite (run_checkConnection _ _ _ Hp);
    cbn [connected]; explore; count_remote_calls.
Qed.

Lemma online_record_and_series_call_remote_once_witness :
  remote_calls (log (snd (fetchCountryDetails online_env "X" (start fresh_store))))
  = [EvGetCountry "X"]
  /\ remote_calls (log (snd (fetchHistoricalData online_env "X" "all" (start fresh_store))))
     = [EvGetHistorical "X" "all"].
Proof.
  apply (online_record_and_series_call_remote_once online_env (start fresh_store) "X" "all").
  reflexivity.
Defined.

(** ** The shape of every outcome *)

(** Whatever the collaborators answer, a success returned by any of the
    three operations carries no error, and a failure carries an error, no
    [fromCache], no message and the default data (the empty list, or
    [null]). *)
Theorem outcomes_well_formed (env : Env) (s : State)
    (forceRefresh : bool) (countryName days : string) :
  (forall r s', fetchAllCountries env forceRefresh s = (Ok r, s') ->
                well_formed_outcome [] r)
  /\ (forall r s', fetchCountryDetails env countryName s = (Ok r, s') ->
                   well_formed_outcome None r)
  /\ (forall r s', fetchHistoricalData env countryName days s = (Ok r, s') ->
                   well_formed_outcome None r).
Proof.
  split; [|split]; intros r s'; open_controller;
    (destruct (netinfo env (tick s)) as [e | c] eqn:Hp;
     [ rewrite (run_checkConnection_throw _ _ _ Hp)
     | rewrite (run_checkConnection _ _ _ Hp) ]);
    explore; intros E; injection E as <- _;
    unfold well_formed_outcome; cbn [success data fromCache message error];
    repeat split; discriminate.
Qed.

Lemma outcomes_well_formed_witness :
  well_formed_outcome ([] : list CountryModel)
    (mkFetchResult false [] None None (Some "No data available")).
Proof.
  destruct (outcomes_well_formed api_down_env (start ∅) true "X" "all") as [H _].
  apply (H _ (snd (fetchAllCountries api_down_env true (start ∅)))).
  vm_compute. reflexivity.
Defined.

(** * The operations over slots of any shape *)

Ltac open_unchecked :=
  unfold Unchecked.fetchAllCountries, Unchecked.fetchAllCountries_body,
    Unchecked.fetchAllCountries_handler,
    Unchecked.fetchCountryDetails, Unchecked.fetchCountryDetails_body,
    Unchecked.fetchHistoricalData, Unchecked.fetchHistoricalData_body,
    Unchecked.fetchHistoricalData_handler,
    Unchecked.getCountriesData, Unchecked.getLastUpdateTime,
    Unchecked.getCachedHistoricalData,
    Unchecked.if_truthy, Unchecked.fromArray, Unchecked.find, Unchecked.throw;
  open_controller.

(** Runs the reads of the store and brings every lookup back to the store
    of the initial state. *)
Ltac settle_reads :=
  repeat (settle; first [ rewrite run_getItem
                        | progress cbn [store tick external probed] ]);
  settle.

Ltac explore_reads := settle_reads; repeat (split_case; settle_reads).

(** What the unchecked reads return. *)
















(** ** The two readings of the slots agree on declared shapes *)

(** On a state whose slots hold values of their declared types, reading
    them unchecked gives the outcome and the final state of the operations
    that read them at those types. *)

Ltac open_both :=
  open_unchecked; unfold getLastUpdateTime, getCountriesData, getCachedHistoricalData,
    Unchecked.isDataStale, Unchecked.as_record, Unchecked.truthy, isDataStale, try_catch, ret.

Ltac explore_known known :=
  repeat (settle_reads; cbn [as_countries as_number as_historical];
          first [ progress known | split_case ]);
  settle_reads.

Lemma unchecked_fetchAllCountries nf env force name s :
  declared_shapes name s ->
  Unchecked.fetchAllCountries nf env force s = fetchAllCountries env force s.
Proof.
  intros (HL & HM & _).
  destruct (store s !! STORAGE_KEYS.COUNTRIES_DATA) as [v|] eqn:EL;
    [destruct (HL v eq_refl) as [l ->]|];
    (destruct (store s !! STORAGE_KEYS.LAST_UPDATE) as [w|] eqn:EM;
     [destruct (HM w eq_refl) as [n ->]|]);
    open_both;
    (destruct (netinfo env (tick s)) as [e | c] eqn:Hp;
     [ rewrite !(run_checkConnection_throw _ _ _ Hp)
     | rewrite !(run_checkConnection _ _ _ Hp) ]);
    explore_known ltac:(rewrite ?EL, ?EM); reflexivity.
Qed.

Lemma unchecked_fetchCountryDetails nf env name s :
  declared_shapes name s ->
  Unchecked.fetchCountryDetails nf env name s = fetchCountryDetails env name s.
Proof.
  intros (HL & _ & _).
  destruct (store s !! STORAGE_KEYS.COUNTRIES_DATA) as [v|] eqn:EL;
    [destruct (HL v eq_refl) as [l ->]|];
    open_both;
    (destruct (netinfo env (tick s)) as [e | c] eqn:Hp;
     [ rewrite !(run_checkConnection_throw _ _ _ Hp)
     | rewrite !(run_checkConnection _ _ _ Hp) ]);
    explore_known ltac:(rewrite ?EL); reflexivity.
Qed.

Lemma unchecked_fetchHistoricalData env name days s :
  declared_shapes name s ->
  Unchecked.fetchHistoricalData env name days s = fetchHistoricalData env name days s.
Proof.
  intros (_ & _ & HH).
  destruct (store s !! historical_key name) as [v|] eqn:EH;
    [destruct (HH v eq_refl) as [h ->]|];
    open_both;
    (destruct (netinfo env (tick s)) as [e | c] eqn:Hp;
     [ rewrite !(run_checkConnection_throw _ _ _ Hp)
     | rewrite !(run_checkConnection _ _ _ Hp) ]);
    explore_known ltac:(rewrite ?EH); reflexivity.
Qed.
